(** * component-metadata-loader: the webpack loader of [lib/index.js]

    The loader parses a source file with Babel, visits every
    [ClassDeclaration], looks for a [@Metadata(...)] decorator, strips it,
    statically reads its first argument into a plain JavaScript value,
    validates the result and emits [<name>.component.json].

    The development embeds the loader shallowly:
    - JavaScript values are an inductive type; numbers are binary64
      floats, objects are association lists kept in property-creation
      order, with their prototype when [__proto__] replaced it;
    - Babel nodes are an inductive type together with the [type] string the
      code dispatches on;
    - a thrown exception is the [Throw] outcome of a small error monad, the
      loader's [emitFile]/[emitError] channels are an explicit log;
    - the Babel parser and generator, [path.resolve] and
      [path.isAbsolute], [fs.existsSync], [JSON.stringify] and the
      language's [ToString] are parameters of the [Loader] section. *)

From Stdlib Require Import String Ascii List ZArith Bool Arith Lia.
From Stdlib Require Import DecimalString Floats.
Import ListNotations.
Open Scope string_scope.
Set Warnings "-register-all".

(** ** Outcomes: normal completion or a thrown exception *)

Inductive error : Type :=
| TypeError
| SyntaxError.

Inductive result (A : Type) : Type :=
| Ok (a : A)
| Throw (e : error).
Arguments Ok {A} a.
Arguments Throw {A} e.

Definition rbind {A B} (r : result A) (k : A -> result B) : result B :=
  match r with
  | Ok a => k a
  | Throw e => Throw e
  end.

Declare Scope result_scope.
Delimit Scope result_scope with result.
Notation "'let?' x ':=' c 'in' k" := (rbind c (fun x => k))
  (at level 10, x name, c at level 100, k at level 200) : result_scope.
Open Scope result_scope.

Section MapResult.
Context {A B : Type} (f : A -> result B).

(** [Array.prototype.map] with a callback that may throw: elements are
    visited left to right and the first exception aborts the call. *)
Fixpoint map_result (l : list A) : result (list B) :=
  match l with
  | [] => Ok []
  | x :: rest =>
      let? y := f x in
      let? ys := map_result rest in
      Ok (y :: ys)
  end.

(** [Array.prototype.reduce] with a callback that may throw. *)
Fixpoint reduce_result (step : B -> A -> result B) (l : list A) (acc : B)
  : result B :=
  match l with
  | [] => Ok acc
  | x :: rest =>
      let? acc' := step acc x in
      reduce_result step rest acc'
  end.
End MapResult.

(** ** JavaScript values *)

Module JS.

(** A number is a binary64 float. An object is its own properties in
    creation order; [VObj] has the prototype [Object.prototype] of an
    object literal, [VObjWith] the prototype an assignment to
    [__proto__] gave it: [None] for [null], else an object or array. *)
Inductive value : Type :=
| VUndefined
| VNull
| VBool (b : bool)
| VNum (n : float)
| VStr (s : string)
| VArr (elems : list value)
| VObj (props : list (string * value))
| VObjWith (proto : option value) (props : list (string * value)).

Definition object : Type := list (string * value).

(** [ToBoolean]: what [!x] and [if (x)] test. *)
Definition truthy (v : value) : bool :=
  match v with
  | VUndefined | VNull => false
  | VBool b => b
  | VNum n => negb (PrimFloat.eqb n 0 || PrimFloat.is_nan n)
  | VStr s => negb (String.eqb s "")
  | VArr _ | VObj _ | VObjWith _ _ => true
  end.

(** [o.k] on a plain object: the own property, else [undefined]. *)
Fixpoint lookup (k : string) (props : list (string * value)) : value :=
  match props with
  | [] => VUndefined
  | (k', v) :: rest => if String.eqb k' k then v else lookup k rest
  end.

Fixpoint has_own (k : string) (props : list (string * value)) : bool :=
  match props with
  | [] => false
  | (k', _) :: rest => String.eqb k' k || has_own k rest
  end.

(** Property read [v.k]. Reading a property of [undefined] or [null]
    throws; an object whose prototype was replaced is read along its
    chain; other primitives, arrays and [Object.prototype] have none of
    the names the loader reads. *)
Fixpoint get (v : value) (k : string) : result value :=
  match v with
  | VUndefined | VNull => Throw TypeError
  | VObj props => Ok (lookup k props)
  | VObjWith proto props =>
      if has_own k props then Ok (lookup k props)
      else match proto with
           | None => Ok VUndefined
           | Some p => get p k
           end
  | _ => Ok VUndefined
  end.

(** [CreateDataProperty]: overwrite in place, else append. *)
Fixpoint define (k : string) (v : value) (props : list (string * value))
  : list (string * value) :=
  match props with
  | [] => [(k, v)]
  | (k', v') :: rest =>
      if String.eqb k' k then (k, v) :: rest
      else (k', v') :: define k v rest
  end.

(** The prototype of an object under construction. *)
Inductive prototype : Type :=
| ObjectPrototype
| Replaced (proto : option value).

Definition make_object (obj : prototype * object) : value :=
  match obj with
  | (ObjectPrototype, own) => VObj own
  | (Replaced proto, own) => VObjWith proto own
  end.

(** What a [[Set]] of [__proto__] finds on a prototype chain: the
    accessor of [Object.prototype], a data property of an object on the
    way, or nothing when the chain ends in [null]. *)
Inductive found : Type := Accessor | Data | Nowhere.

Fixpoint find_proto_key (p : value) : found :=
  match p with
  | VObj props => if has_own "__proto__" props then Data else Accessor
  | VObjWith proto props =>
      if has_own "__proto__" props then Data
      else match proto with
           | None => Nowhere
           | Some p' => find_proto_key p'
           end
  | _ => Accessor
  end.

Definition find_on_chain (proto : prototype) : found :=
  match proto with
  | ObjectPrototype => Accessor
  | Replaced None => Nowhere
  | Replaced (Some p) => find_proto_key p
  end.

Definition is_object (v : value) : bool :=
  match v with
  | VArr _ | VObj _ | VObjWith _ _ => true
  | _ => false
  end.

(** [obj[k] = v] on an object created by [{}]. Every key but
    [__proto__] becomes an own property. [__proto__], unless it is an
    own property already, goes up the chain: the accessor of
    [Object.prototype] replaces the prototype when [v] is an object or
    [null] and does nothing otherwise; when the chain offers a data
    property or ends in [null] before it, an own property is created. *)
Definition assign (obj : prototype * object) (k : string) (v : value)
  : prototype * object :=
  let (proto, own) := obj in
  if negb (String.eqb k "__proto__") || has_own k own then
    (proto, define k v own)
  else
    match find_on_chain proto with
    | Accessor =>
        if is_object v then (Replaced (Some v), own)
        else match v with
             | VNull => (Replaced None, own)
             | _ => (proto, own)
             end
    | Data | Nowhere => (proto, define k v own)
    end.

Definition string_of_nat (n : nat) : string :=
  NilZero.string_of_uint (Nat.to_uint n).

Fixpoint index_from {A} (i : nat) (l : list A) : list (string * A) :=
  match l with
  | [] => []
  | x :: rest => (string_of_nat i, x) :: index_from (S i) rest
  end.

Fixpoint chars (s : string) : list value :=
  match s with
  | EmptyString => []
  | String c rest => VStr (String c EmptyString) :: chars rest
  end.

(** Own enumerable properties copied by an object spread [...v]. *)
Definition own_entries (v : value) : list (string * value) :=
  match v with
  | VObj props | VObjWith _ props => props
  | VArr elems => index_from 0 elems
  | VStr s => index_from 0 (chars s)
  | _ => []
  end.

Definition spread (target : list (string * value)) (v : value)
  : list (string * value) :=
  fold_left (fun acc kv => define (fst kv) (snd kv) acc) (own_entries v)
            target.

(** [ToString], as applied by a template literal. A string is itself;
    for any other value the conversion is the language's, [ToString],
    which answers [None] where it throws a [TypeError] (an object whose
    [toString] and [valueOf] give no primitive). *)
Definition to_string (ToString : value -> option string) (v : value)
  : result string :=
  match v with
  | VStr s => Ok s
  | _ =>
      match ToString v with
      | Some s => Ok s
      | None => Throw TypeError
      end
  end.

(** [String.prototype.endsWith]. *)
Definition endsWith (s suffix : string) : bool :=
  let n := String.length s in
  let m := String.length suffix in
  (m <=? n)%nat && String.eqb (substring (n - m) m s) suffix.

End JS.
Import JS.

(** ** Babel syntax trees *)

Module Babel.

(** Expression nodes and the members of an object literal. Every
    constructor is a Babel node kind and carries that kind's fields. An
    array literal's [elements] holds [None] for a hole ([[1,,2]]). *)
Inductive node : Type :=
| StringLiteral (value : string)
| NumericLiteral (value : float)
| BooleanLiteral (value : bool)
| NullLiteral
| BigIntLiteral (value : string)
| RegExpLiteral (pattern flags : string)
| TemplateLiteral (quasis : list string) (expressions : list node)
| ObjectExpression (properties : list node)
| ArrayExpression (elements : list (option node))
| Identifier (name : string)
| CallExpression (callee : node) (arguments : list node)
| MemberExpression (object property : node)
| BinaryExpression (operator : string) (left right : node)
| UnaryExpression (operator : string) (argument : node)
| ArrowFunctionExpression (code : string)
| SpreadElement (argument : node)
| ObjectProperty (key : node) (computed : bool) (value : node)
| ObjectMethod (key : node) (code : string).

(** [node.type] *)
Definition node_type (n : node) : string :=
  match n with
  | StringLiteral _ => "StringLiteral"
  | NumericLiteral _ => "NumericLiteral"
  | BooleanLiteral _ => "BooleanLiteral"
  | NullLiteral => "NullLiteral"
  | BigIntLiteral _ => "BigIntLiteral"
  | RegExpLiteral _ _ => "RegExpLiteral"
  | TemplateLiteral _ _ => "TemplateLiteral"
  | ObjectExpression _ => "ObjectExpression"
  | ArrayExpression _ => "ArrayExpression"
  | Identifier _ => "Identifier"
  | CallExpression _ _ => "CallExpression"
  | MemberExpression _ _ => "MemberExpression"
  | BinaryExpression _ _ _ => "BinaryExpression"
  | UnaryExpression _ _ => "UnaryExpression"
  | ArrowFunctionExpression _ => "ArrowFunctionExpression"
  | SpreadElement _ => "SpreadElement"
  | ObjectProperty _ _ _ => "ObjectProperty"
  | ObjectMethod _ _ => "ObjectMethod"
  end.

(** [node.value] of a node whose type ends in [Literal]. Babel gives
    [NullLiteral], [RegExpLiteral] and [TemplateLiteral] no [value]
    field, so the read yields [undefined]. *)
Definition node_value (n : node) : JS.value :=
  match n with
  | StringLiteral s => VStr s
  | NumericLiteral z => VNum z
  | BooleanLiteral b => VBool b
  | BigIntLiteral s => VStr s
  | _ => VUndefined
  end.

(** [node.name]: only identifiers have one. *)
Definition node_name (n : node) : option string :=
  match n with
  | Identifier s => Some s
  | _ => None
  end.

(** A property key: [obj[undefined] = v] writes the key ["undefined"]. *)
Definition property_key (name : option string) : string :=
  match name with
  | Some s => s
  | None => "undefined"
  end.

Record Decorator : Type := { expression : node }.

(** A class declaration. [id] is [None] for [export default class {}];
    [decorators] is [None] when the node has no such attribute; [body]
    is the text of the class body, which the visitor does not read. *)
Record ClassDeclaration : Type := {
  id : option string;
  decorators : option (list Decorator);
  superClass : option string;
  body : string
}.

(** The statements of a file in traversal order: the class declarations
    the visitor is called on, and everything else. *)
Inductive statement : Type :=
| Class (c : ClassDeclaration)
| Other (code : string).

Definition File : Type := list statement.

End Babel.
Import Babel.

(** ** The loader *)

(** [extractValue]: literals by their [value] field, object literals by a
    [reduce] over the properties, array literals by a [map] over the
    elements, anything else [null]. Calling it on [undefined] (the [value]
    of a method) or [null] (a hole) throws at [node.type]; reading
    [prop.key.name] of a spread member throws as well. *)
Fixpoint extractValue (n : node) : result JS.value :=
  if endsWith (node_type n) "Literal" then Ok (node_value n)
  else
    match n with
    | ObjectExpression properties =>
        let? obj :=
          reduce_result
            (fun obj prop =>
               match prop with
               | ObjectProperty key _ value =>
                   let? v := extractValue value in
                   Ok (assign obj (property_key (node_name key)) v)
               | _ => Throw TypeError
               end)
            properties (ObjectPrototype, []) in
        Ok (make_object obj)
    | ArrayExpression elements =>
        let? vs :=
          map_result
            (fun elt =>
               match elt with
               | Some e => extractValue e
               | None => Throw TypeError
               end)
            elements in
        Ok (VArr vs)
    | _ => Ok VNull
    end.

(** [emitFile] and [emitError] append to the loader's two channels. *)
Record Log : Type := {
  files : list (string * string);
  errors : list string
}.

Definition Loader (A : Type) : Type := Log -> result A * Log.

Definition ret {A} (a : A) : Loader A := fun log => (Ok a, log).

Definition throw {A} (e : error) : Loader A := fun log => (Throw e, log).

Definition bind {A B} (m : Loader A) (k : A -> Loader B) : Loader B :=
  fun log =>
    match m log with
    | (Ok a, log') => k a log'
    | (Throw e, log') => (Throw e, log')
    end.

Definition lift {A} (r : result A) : Loader A := fun log => (r, log).

Definition emitFile (name content : string) : Loader unit :=
  fun log =>
    (Ok tt, {| files := files log ++ [(name, content)]; errors := errors log |}).

Definition emitError (message : string) : Loader unit :=
  fun log =>
    (Ok tt, {| files := files log; errors := errors log ++ [message] |}).

Declare Scope loader_scope.
Delimit Scope loader_scope with loader.
Notation "'do' x <- c ; k" := (bind c (fun x => k))
  (at level 10, x name, c at level 100, k at level 200) : loader_scope.
Notation "c ;; k" := (bind c (fun _ => k))
  (at level 100, k at level 200, right associativity) : loader_scope.
Open Scope loader_scope.

(** Object identity. [x !== decorator] compares references; the reference
    of a node of a decorator list is its position in that list. *)
Definition ref (A : Type) : Type := (nat * A)%type.

Fixpoint refs_from {A} (i : nat) (l : list A) : list (ref A) :=
  match l with
  | [] => []
  | x :: rest => (i, x) :: refs_from (S i) rest
  end.

Definition refs {A} (l : list A) : list (ref A) := refs_from 0 l.

Definition same_ref {A} (x y : ref A) : bool := Nat.eqb (fst x) (fst y).

Definition node_callee (n : node) : option node :=
  match n with
  | CallExpression callee _ => Some callee
  | _ => None
  end.

Definition node_arguments (n : node) : list node :=
  match n with
  | CallExpression _ arguments => arguments
  | _ => []
  end.

(** The filter of [getMetadata]:
    [type === 'CallExpression' && callee.name === 'Metadata']. *)
Definition isMetadata (d : Decorator) : bool :=
  String.eqb (node_type (expression d)) "CallExpression"
  && match node_callee (expression d) with
     | Some callee =>
         match node_name callee with
         | Some s => String.eqb s "Metadata"
         | None => false
         end
     | None => false
     end.

(** [getMetadata]: the first decorator passing the filter, and its first
    argument extracted; [None] is the code's [null]. *)
Definition getMetadata (decorators : list (ref Decorator))
  : result (option (ref Decorator * JS.value)) :=
  match hd_error (filter (fun d => isMetadata (snd d)) decorators) with
  | None => Ok None
  | Some d =>
      match hd_error (node_arguments (expression (snd d))) with
      | None => Ok None
      | Some options =>
          let? args := extractValue options in
          Ok (Some (d, args))
      end
  end.

Section Loader.

(** Source text, and the Babel parser and generator. *)
Context {Text : Type}.
Context (parse : Text -> option File) (generate : File -> Text).

(** [path.resolve] on two strings, [fs.existsSync], and
    [JSON.stringify(_, null, 4)]. *)
Context (resolve : string -> string -> string).
Context (existsSync : string -> bool).
Context (stringify : JS.value -> string).

(** The test that ends [path.resolve]'s reading of its arguments
    ([path.isAbsolute] on POSIX), and the language's [ToString] on a
    value that is not a string ([None] where it throws a [TypeError]). *)
Context (isAbsolute : string -> bool).
Context (ToString : JS.value -> option string).

(** [path.resolve(base, rel)] reads its arguments from the right and
    stops at an absolute one: [rel] must be a string, and [base] must be
    one unless [rel] is absolute, in which case [base] plays no part. An
    argument it reads that is not a string makes it throw a
    [TypeError]. *)
Definition path_resolve (base rel : JS.value) : result string :=
  match rel with
  | VStr r =>
      match base with
      | VStr b => Ok (resolve b r)
      | _ => if isAbsolute r then Ok (resolve "" r) else Throw TypeError
      end
  | _ => Throw TypeError
  end.

Definition validateOptions (options : object) (name : string)
  : Loader bool :=
  if negb (truthy (lookup "name" options)) then
    emitError ("name must be specified for " ++ name) ;;
    ret false
  else if negb (truthy (lookup "thumbnail" options)) then
    emitError ("thumbnail must be specified for " ++ name) ;;
    ret false
  else
    do filePath <-
      lift (let? context := get (lookup "env" options) "context" in
            path_resolve context (lookup "thumbnail" options)) ;
    if negb (existsSync filePath) then
      emitError ("Missing thumbnail (" ++ filePath ++ ") for " ++ name
                 ++ ", does not exist.") ;;
      ret false
    else ret true.

(** The object literal [{ name, ...args, env: { context } }]. *)
Definition makeOptions (name : string) (args : JS.value) (context : string)
  : object :=
  define "env" (VObj [("context", VStr context)])
         (spread [("name", VStr name)] args).

(** The filter [x => x !== decorator] followed by the [delete] of an
    emptied list. *)
Definition strip (decorator : ref Decorator) (decorators : list Decorator)
  : option (list Decorator) :=
  let kept :=
    filter (fun x => negb (same_ref x decorator)) (refs decorators) in
  if Nat.eqb (List.length kept) 0 then None else Some (map snd kept).

Definition set_decorators (c : ClassDeclaration)
           (ds : option (list Decorator)) : ClassDeclaration :=
  {| id := id c; decorators := ds;
     superClass := superClass c; body := body c |}.

(** [node.decorators || []] *)
Definition decorators_or_empty (c : ClassDeclaration) : list Decorator :=
  match decorators c with
  | Some ds => ds
  | None => []
  end.

(** The [ClassDeclaration] visitor; [context] is [loader.context]. The
    visitor mutates the node it is given, so the node is part of what it
    leaves behind, also when it throws: [visitNode] returns how the visit
    ended, the node as the visit left it, and the two channels.
    - [node.id.name] is read first;
    - the decorator list is rewritten as soon as the locator has a
      match, before the record is validated;
    - the file name [`${options.name}.component.json`] is computed
      before [emitFile] is called, and converting the name can throw. *)
Definition visitNode (context : string) (c : ClassDeclaration) (log : Log)
  : result unit * ClassDeclaration * Log :=
  match id c with
  | None => (Throw TypeError, c, log)
  | Some name =>
      match getMetadata (refs (decorators_or_empty c)) with
      | Throw e => (Throw e, c, log)
      | Ok None => (Ok tt, c, log)
      | Ok (Some (decorator, args)) =>
          let c' := set_decorators c (strip decorator (decorators_or_empty c)) in
          let options := makeOptions name args context in
          match validateOptions options name log with
          | (Throw e, log') => (Throw e, c', log')
          | (Ok false, log') => (Ok tt, c', log')
          | (Ok true, log') =>
              match to_string ToString (lookup "name" options) with
              | Throw e => (Throw e, c', log')
              | Ok file =>
                  (Ok tt, c',
                   snd (emitFile (file ++ ".component.json")
                                 (stringify (VObj options)) log'))
              end
          end
      end
  end.

(** The visitor as the traversal uses it: the node when the visit
    returns, nothing of it when the visit throws. *)
Definition visitClass (context : string) (c : ClassDeclaration)
  : Loader ClassDeclaration :=
  fun log =>
    match visitNode context c log with
    | (Ok _, c', log') => (Ok c', log')
    | (Throw e, _, log') => (Throw e, log')
    end.

(** [traverse(ast, { ClassDeclaration })] *)
Fixpoint traverse (visit : ClassDeclaration -> Loader ClassDeclaration)
         (ast : File) : Loader File :=
  match ast with
  | [] => ret []
  | Class c :: rest =>
      do c' <- visit c ;
      do rest' <- traverse visit rest ;
      ret (Class c' :: rest')
  | Other code :: rest =>
      do rest' <- traverse visit rest ;
      ret (Other code :: rest')
  end.

(** [module.exports]; a source the parser rejects makes it throw. *)
Definition transform (context : string) (source : Text) : Loader Text :=
  match parse source with
  | None => throw SyntaxError
  | Some ast =>
      do ast' <- traverse (visitClass context) ast ;
      ret (generate ast')
  end.

End Loader.

(** ** Reading the specification's words *)

Open Scope list_scope.

(** The shapes the extractor is documented to read: string, number,
    boolean and null literals, object literals and array literals. *)
Definition recognized_shape (n : node) : bool :=
  match n with
  | StringLiteral _ | NumericLiteral _ | BooleanLiteral _ | NullLiteral
  | ObjectExpression _ | ArrayExpression _ => true
  | _ => false
  end.

(** A literal the extractor destructures without incident: every member of
    an object literal is a property keyed by an identifier other than
    [__proto__], no array literal has a hole, and so on inside. *)
Fixpoint static_literal (n : node) : bool :=
  match n with
  | ObjectExpression properties =>
      forallb (fun p =>
                 match p with
                 | ObjectProperty (Identifier k) _ v =>
                     negb (String.eqb k "__proto__") && static_literal v
                 | _ => false
                 end) properties
  | ArrayExpression elements =>
      forallb (fun e =>
                 match e with
                 | Some x => static_literal x
                 | None => false
                 end) elements
  | _ => true
  end.

(** The callbacks of the [reduce] and of the [map] in [extractValue]. *)
Definition extract_property (obj : prototype * object) (prop : node)
  : result (prototype * object) :=
  match prop with
  | ObjectProperty key _ value =>
      let? v := extractValue value in
      Ok (assign obj (property_key (node_name key)) v)
  | _ => Throw TypeError
  end.

Definition extract_element (elt : option node) : result JS.value :=
  match elt with
  | Some e => extractValue e
  | None => Throw TypeError
  end.

(** Member [p] is a property keyed by the identifier [fst e] whose value
    node is extracted as [snd e]. *)
Definition extracts_to (p : node) (e : string * JS.value) : Prop :=
  exists computed v,
    p = ObjectProperty (Identifier (fst e)) computed v /\
    extractValue v = Ok (snd e).

(** Element [elt] is present and extracted as [x]. *)
Definition element_extracts_to (elt : option node) (x : JS.value) : Prop :=
  exists e, elt = Some e /\ extractValue e = Ok x.

(** Successive [CreateDataProperty] calls, first entry first. *)
Definition define_all (entries : list (string * JS.value)) (target : object)
  : object :=
  fold_left (fun acc kv => define (fst kv) (snd kv) acc) entries target.

(** A decorator list without a qualifying annotation. *)
Definition no_metadata (ds : list Decorator) : Prop :=
  Forall (fun d => isMetadata d = false) ds.

(** At most one qualifying annotation on every class of a file. *)
Definition at_most_one_metadata (c : ClassDeclaration) : Prop :=
  length (filter isMetadata (decorators_or_empty c)) <= 1.

Definition single_metadata (ast : File) : Prop :=
  Forall (fun s => match s with
                   | Class c => at_most_one_metadata c
                   | Other _ => True
                   end) ast.

(** "A non-empty string", the wording of validation rules 1 and 2. *)
Definition non_empty_string (v : JS.value) : bool :=
  match v with
  | VStr s => negb (String.eqb s "")
  | _ => false
  end.

(** What the truthiness tests of rules 1 and 2 let through besides a
    non-empty string is excluded here: a string, or a falsy value. *)
Definition string_or_falsy (v : JS.value) : bool :=
  match v with
  | VStr _ => true
  | _ => negb (truthy v)
  end.

(** The three validation failures and their diagnostics. *)
Inductive ValidationFailure : Type :=
| MissingName
| MissingThumbnail
| ThumbnailNotFound (filePath : string).

Definition diagnostic (f : ValidationFailure) (name : string) : string :=
  match f with
  | MissingName => "name must be specified for " ++ name
  | MissingThumbnail => "thumbnail must be specified for " ++ name
  | ThumbnailNotFound filePath =>
      "Missing thumbnail (" ++ filePath ++ ") for " ++ name
      ++ ", does not exist."
  end%string.

(** The field a failure is about, and what it is for a message to mention
    a piece of text. *)
Definition failing_field (f : ValidationFailure) : string :=
  match f with
  | MissingName => "name"
  | MissingThumbnail | ThumbnailNotFound _ => "thumbnail"
  end.

Definition mentions (message part : string) : Prop :=
  exists before after, message = (before ++ part ++ after)%string.

Definition same_rule (f g : ValidationFailure) : bool :=
  match f, g with
  | MissingName, MissingName => true
  | MissingThumbnail, MissingThumbnail => true
  | ThumbnailNotFound _, ThumbnailNotFound _ => true
  | _, _ => false
  end.

Definition report (message : string) (log : Log) : Log :=
  {| files := files log; errors := errors log ++ [message] |}.

Definition emitted (name content : string) (log : Log) : Log :=
  {| files := files log ++ [(name, content)]; errors := errors log |}.

(** How a visit ends once a match is found and the record validated, by
    the validator's verdict: a throw goes through, a rejection ends the
    visit, an acceptance computes the file name (which can throw) and
    emits. *)
Definition conclude (ToString : JS.value -> option string)
           (stringify : JS.value -> string) (record : object)
           (verdict : result bool) (log : Log) : result unit * Log :=
  match verdict with
  | Throw e => (Throw e, log)
  | Ok false => (Ok tt, log)
  | Ok true =>
      match to_string ToString (lookup "name" record) with
      | Throw e => (Throw e, log)
      | Ok file =>
          (Ok tt,
           emitted (file ++ ".component.json")%string
                   (stringify (VObj record)) log)
      end
  end.

(** The string a value is, when it is one. *)
Definition as_string (v : JS.value) : string :=
  match v with
  | VStr s => s
  | _ => ""
  end.

Section Rules.
Context (resolve : string -> string -> string).
Context (existsSync : string -> bool).

(** The rules in order, the first failing one reported: name present,
    thumbnail present, resolved thumbnail path exists. *)
Definition first_failure (options : object) (context : string)
  : option ValidationFailure :=
  if negb (truthy (lookup "name" options)) then Some MissingName
  else if negb (truthy (lookup "thumbnail" options)) then
    Some MissingThumbnail
  else
    let filePath :=
      resolve context (as_string (lookup "thumbnail" options)) in
    if existsSync filePath then None
    else Some (ThumbnailNotFound filePath).
End Rules.

(** The class [c] with [kept] as its decorators: no [decorators]
    attribute when [kept] is empty, every other part as in [c]. *)
Definition with_decorators (c : ClassDeclaration) (kept : list Decorator)
  : ClassDeclaration :=
  {| id := id c;
     decorators := match kept with
                   | [] => None
                   | _ :: _ => Some kept
                   end;
     superClass := superClass c;
     body := body c |}.

(** A decorator list cut at its first qualifying annotation. *)
Fixpoint split_first (ds : list Decorator)
  : option (list Decorator * Decorator * list Decorator) :=
  match ds with
  | [] => None
  | d :: rest =>
      if isMetadata d then Some ([], d, rest)
      else
        match split_first rest with
        | Some (pre, m, post) => Some (d :: pre, m, post)
        | None => None
        end
  end.

(** The rewrite as the tree rewriter is described: a class whose first
    qualifying annotation carries an argument loses that annotation, and
    the attribute with it when nothing else is attached; every other class
    and every other statement is left as it is. *)
Definition rewritten (c : ClassDeclaration) : ClassDeclaration :=
  match decorators c with
  | None => c
  | Some ds =>
      match split_first ds with
      | Some (pre, d, post) =>
          match node_arguments (expression d) with
          | [] => c
          | _ :: _ => with_decorators c (pre ++ post)
          end
      | None => c
      end
  end.

Definition rewritten_statement (s : statement) : statement :=
  match s with
  | Class c => Class (rewritten c)
  | Other code => Other code
  end.

(** ** The sample file of the repository, and variations *)

Module Examples.

Definition context : string := "/src".

(** Stand-ins for the host's functions in the runs: POSIX paths, one
    file on disk, and compact printers in place of [JSON.stringify] and
    of [ToString]. *)
Definition isAbsolute (p : string) : bool := String.prefix "/" p.

Definition resolve (base rel : string) : string :=
  if isAbsolute rel then rel else (base ++ "/" ++ rel)%string.

Definition existsSync (filePath : string) : bool :=
  String.eqb filePath "/src/./sample.png".

Definition show_number (n : float) : string :=
  match Prim2SF n with
  | S754_zero _ => "0"
  | S754_infinity false => "Infinity"
  | S754_infinity true => "-Infinity"
  | S754_nan => "NaN"
  | S754_finite sign m e =>
      ((if sign then "-" else "")
       ++ NilZero.string_of_uint (Pos.to_uint m)
       ++ "*2^" ++ NilZero.string_of_int (Z.to_int e))%string
  end.

Fixpoint show (v : JS.value) : string :=
  match v with
  | VUndefined => "undefined"
  | VNull => "null"
  | VBool true => "true"
  | VBool false => "false"
  | VNum n => show_number n
  | VStr s => ("'" ++ s ++ "'")%string
  | VArr elems => ("[" ++ String.concat "," (map show elems) ++ "]")%string
  | VObj props | VObjWith _ props =>
      ("{" ++ String.concat ","
                (map (fun kv => match kv with
                                | (k, x) => (k ++ ":" ++ show x)%string
                                end) props)
           ++ "}")%string
  end.

(** An array converts to its elements joined by commas, [null] and
    [undefined] among them to the empty string. An object converts to
    ["[object Object]"], unless a property [toString] on the way (no
    extracted value is a function) or a [null] prototype leaves it
    without a primitive. *)
Fixpoint ToString (v : JS.value) : option string :=
  match v with
  | VUndefined => Some "undefined"
  | VNull => Some "null"
  | VBool b => Some (if b then "true" else "false")
  | VNum n => Some (show_number n)
  | VStr s => Some s
  | VArr elems =>
      (fix join (l : list JS.value) : option string :=
         match l with
         | [] => Some ""
         | x :: rest =>
             match match x with
                   | VUndefined | VNull => Some ""
                   | _ => ToString x
                   end with
             | None => None
             | Some first =>
                 match rest with
                 | [] => Some first
                 | _ :: _ =>
                     match join rest with
                     | Some others => Some (first ++ "," ++ others)%string
                     | None => None
                     end
                 end
             end
         end) elems
  | VObj props =>
      if has_own "toString" props then None else Some "[object Object]"
  | VObjWith proto props =>
      if has_own "toString" props then None
      else match proto with
           | None => None
           | Some p => ToString p
           end
  end.

Definition parse (source : File) : option File := Some source.
Definition generate (ast : File) : File := ast.

Definition log0 : Log := {| files := []; errors := [] |}.

Definition prop (k : string) (v : node) : node :=
  ObjectProperty (Identifier k) false v.

Definition Metadata (args : list node) : Decorator :=
  {| expression := CallExpression (Identifier "Metadata") args |}.

Definition observer : Decorator :=
  {| expression := Identifier "observer" |}.

Definition class (name : string) (ds : list Decorator) : ClassDeclaration :=
  {| id := Some name; decorators := Some ds;
     superClass := None; body := "{}" |}.

Definition bare (name : string) : ClassDeclaration :=
  {| id := Some name; decorators := None;
     superClass := None; body := "{}" |}.

(** [sample/index.js] *)
Definition sample_args : node :=
  ObjectExpression
    [ prop "name" (StringLiteral "Sample");
      prop "thumbnail" (StringLiteral "./sample.png");
      prop "description" (StringLiteral "A Sample Component");
      prop "props"
        (ArrayExpression
           [ Some (ObjectExpression
                     [ prop "name" (StringLiteral "title");
                       prop "label" (StringLiteral "Title");
                       prop "type" (StringLiteral "string") ]);
             Some (ObjectExpression
                     [ prop "name" (StringLiteral "message");
                       prop "label" (StringLiteral "Message");
                       prop "type" (StringLiteral "string") ]) ]) ].

Definition test_args : node :=
  ObjectExpression
    [ prop "thumbnail" (StringLiteral "./sample.png");
      prop "description" (StringLiteral "A Test Component");
      prop "props"
        (ObjectExpression [ prop "title" (StringLiteral "string") ]) ].

Definition SampleComponent : ClassDeclaration :=
  class "SampleComponent" [Metadata [sample_args]].

Definition TestComponent : ClassDeclaration :=
  class "TestComponent" [Metadata [test_args]].

Definition sample_file : File :=
  [ Other "import { Metadata } from '../lib/metadata-decorator';";
    Class SampleComponent;
    Class TestComponent ].

(** A class whose annotation has no thumbnail. *)
Definition no_thumbnail_args : node :=
  ObjectExpression [ prop "description" (StringLiteral "A card") ].

Definition Card : ClassDeclaration :=
  class "Card" [Metadata [no_thumbnail_args]].

(** A class annotated twice. *)
Definition Twice : ClassDeclaration :=
  class "Twice" [Metadata [test_args]; Metadata [test_args]].

(** A class whose first annotation has no argument. *)
Definition Empty : ClassDeclaration :=
  class "Empty" [observer; Metadata []; Metadata [test_args]].

(** [export default class {}] *)
Definition anonymous : ClassDeclaration :=
  {| id := None; decorators := None; superClass := None; body := "{}" |}.

Definition run_node (c : ClassDeclaration) (log : Log)
  : result unit * ClassDeclaration * Log :=
  visitNode resolve existsSync show isAbsolute ToString context c log.

Definition run_visit (c : ClassDeclaration) (log : Log)
  : result ClassDeclaration * Log :=
  visitClass resolve existsSync show isAbsolute ToString context c log.

Definition run (source : File) (log : Log) : result File * Log :=
  transform parse generate resolve existsSync show isAbsolute ToString
            context source log.

End Examples.

(** ** Further vocabulary *)

(** Class declarations of a file. *)
Fixpoint count_classes (ast : File) : nat :=
  match ast with
  | [] => 0
  | Class _ :: rest => S (count_classes rest)
  | Other _ :: rest => count_classes rest
  end.

(** A statement the visitor has nothing to do with: not a class, or a
    class with an identifier and no qualifying annotation. *)
Definition unannotated (s : statement) : Prop :=
  match s with
  | Class c => id c <> None /\ no_metadata (decorators_or_empty c)
  | Other _ => True
  end.

(** A syntax node without array literal inside. *)
Fixpoint array_free (n : node) : bool :=
  match n with
  | ArrayExpression _ => false
  | ObjectExpression properties =>
      forallb (fun p =>
                 match p with
                 | ObjectProperty _ _ v => array_free v
                 | _ => true
                 end) properties
  | _ => true
  end.

(** ** The first version of the loader *)

(** [src/unnamed/part_002]: the loader before validation and emission were
    added. It strips the annotation from the tree it parsed, and returns
    the source text it was given. *)
Module Early.

(** [extractValue] without the array case. *)
Fixpoint extractValue (n : node) : result JS.value :=
  if endsWith (node_type n) "Literal" then Ok (node_value n)
  else
    match n with
    | ObjectExpression properties =>
        let? obj :=
          reduce_result
            (fun obj prop =>
               match prop with
               | ObjectProperty key _ value =>
                   let? v := extractValue value in
                   Ok (assign obj (property_key (node_name key)) v)
               | _ => Throw TypeError
               end)
            properties (ObjectPrototype, []) in
        Ok (make_object obj)
    | _ => Ok VNull
    end.

Definition extract_property (obj : prototype * object) (prop : node)
  : result (prototype * object) :=
  match prop with
  | ObjectProperty key _ value =>
      let? v := extractValue value in
      Ok (assign obj (property_key (node_name key)) v)
  | _ => Throw TypeError
  end.

Definition getMetadata (decorators : list (ref Decorator))
  : result (option (ref Decorator * JS.value)) :=
  match hd_error (filter (fun d => isMetadata (snd d)) decorators) with
  | None => Ok None
  | Some d =>
      match hd_error (node_arguments (expression (snd d))) with
      | None => Ok None
      | Some options =>
          let? args := extractValue options in
          Ok (Some (d, args))
      end
  end.

(** The locator completes on a class: it returns a match or "absent". *)
Definition locates (c : ClassDeclaration) : Prop :=
  exists r, getMetadata (refs (decorators_or_empty c)) = Ok r.

Definition locates_all (ast : File) : Prop :=
  Forall (fun s => match s with
                   | Class c => locates c
                   | Other _ => True
                   end) ast.

(** The visitor reads [node.id], not [node.id.name]. *)
Definition visitClass (c : ClassDeclaration) : result ClassDeclaration :=
  let? result := getMetadata (refs (decorators_or_empty c)) in
  match result with
  | None => Ok c
  | Some (decorator, _) =>
      Ok (set_decorators c (strip decorator (decorators_or_empty c)))
  end.

Fixpoint traverse (ast : File) : result File :=
  match ast with
  | [] => Ok []
  | Class c :: rest =>
      let? c' := visitClass c in
      let? rest' := traverse rest in
      Ok (Class c' :: rest')
  | Other code :: rest =>
      let? rest' := traverse rest in
      Ok (Other code :: rest')
  end.

Section Transform.
Context {Text : Type}.
Context (parse : Text -> option File).

(** [module.exports]: the rewritten tree is dropped, [source] returned. *)
Definition transform (source : Text) : result Text :=
  match parse source with
  | None => Throw SyntaxError
  | Some ast =>
      let? _ := traverse ast in
      Ok source
  end.
End Transform.

End Early.

(** ** The sample file, run *)

Example sample_file_run :
  Examples.run Examples.sample_file Examples.log0
  = (Ok [ Other "import { Metadata } from '../lib/metadata-decorator';";
          Class (Examples.bare "SampleComponent");
          Class (Examples.bare "TestComponent") ],
     {| files :=
          [ ("Sample.component.json",
             "{name:'Sample',thumbnail:'./sample.png',description:'A Sample Component',props:[{name:'title',label:'Title',type:'string'},{name:'message',label:'Message',type:'string'}],env:{context:'/src'}}");
            ("TestComponent.component.json",
             "{name:'TestComponent',thumbnail:'./sample.png',description:'A Test Component',props:{title:'string'},env:{context:'/src'}}") ];
        errors := [] |}).
Proof. reflexivity. Qed.

Example missing_thumbnail_run :
  Examples.run_visit Examples.Card Examples.log0
  = (Ok (Examples.bare "Card"),
     {| files := []; errors := ["thumbnail must be specified for Card"] |}).
Proof. reflexivity. Qed.

Example duplicate_key_run :
  extractValue
    (ObjectExpression
       [ Examples.prop "type" (StringLiteral "number");
         Examples.prop "label" (StringLiteral "Title");
         Examples.prop "type" (StringLiteral "string") ])
  = Ok (VObj [("type", VStr "string"); ("label", VStr "Title")]).
Proof. reflexivity. Qed.

(** A name that has no string: the annotation is stripped, the record is
    accepted (its name is truthy), and the visit throws when it builds the
    file name, before [emitFile]. *)
Example unprintable_name_run :
  Examples.run_node
    (Examples.class "Card"
       [Examples.Metadata
          [ObjectExpression
             [ Examples.prop "name"
                 (ObjectExpression
                    [Examples.prop "toString" (StringLiteral "x")]);
               Examples.prop "thumbnail" (StringLiteral "./sample.png") ]]])
    Examples.log0
  = (Throw TypeError, Examples.bare "Card", Examples.log0).
Proof. reflexivity. Qed.

(** An absolute thumbnail is resolved on its own: the context is not
    read, and need not be a string. *)
Example absolute_thumbnail_run :
  validateOptions Examples.resolve Examples.existsSync Examples.isAbsolute
    [("name", VStr "Card"); ("thumbnail", VStr "/src/./sample.png");
     ("env", VObj [])]
    "Card" Examples.log0
  = (Ok true, Examples.log0) /\
  validateOptions Examples.resolve Examples.existsSync Examples.isAbsolute
    [("name", VStr "Card"); ("thumbnail", VStr "./sample.png");
     ("env", VObj [])]
    "Card" Examples.log0
  = (Throw TypeError, Examples.log0).
Proof. split; reflexivity. Qed.

(** ** Facts about strings *)

Lemma append_assoc (a b c : string) :
  ((a ++ b) ++ c)%string = (a ++ (b ++ c))%string.
Proof.
  induction a as [|ch a IH]; simpl; [reflexivity|]. now rewrite IH.
Qed.

Lemma append_empty_r (a : string) : (a ++ "")%string = a.
Proof.
  induction a as [|ch a IH]; simpl; [reflexivity|]. now rewrite IH.
Qed.

Lemma diagnostic_mentions_class f name : mentions (diagnostic f name) name.
Proof.
  destruct f as [| |filePath]; simpl.
  - exists "name must be specified for ", "". now rewrite append_empty_r.
  - exists "thumbnail must be specified for ", "". now rewrite append_empty_r.
  - exists ("Missing thumbnail (" ++ filePath ++ ") for ")%string,
           ", does not exist.".
    change ("Missing thumbnail (" ++ filePath ++ ") for ")%string
      with (("Missing thumbnail (" ++ filePath) ++ ") for ")%string at 1.
    rewrite !append_assoc. reflexivity.
Qed.

Lemma diagnostic_mentions_field f name :
  mentions (diagnostic f name) (failing_field f).
Proof.
  destruct f as [| |filePath]; simpl.
  - exists "", (" must be specified for " ++ name)%string. reflexivity.
  - exists "", (" must be specified for " ++ name)%string. reflexivity.
  - exists "Missing ",
           (" (" ++ filePath ++ ") for " ++ name ++ ", does not exist.")%string.
    reflexivity.
Qed.

(** ** Facts about references into a decorator list *)

Lemma refs_from_app {A} (l1 l2 : list A) i :
  refs_from i (l1 ++ l2) = refs_from i l1 ++ refs_from (i + length l1) l2.
Proof.
  revert i; induction l1 as [|x l1 IH]; intros i; simpl.
  - now rewrite Nat.add_0_r.
  - rewrite IH. now replace (S i + length l1) with (i + S (length l1)) by lia.
Qed.

Lemma refs_from_snd {A} (l : list A) i : map snd (refs_from i l) = l.
Proof.
  revert i; induction l as [|x l IH]; intros i; simpl; [reflexivity|].
  now rewrite IH.
Qed.

Lemma refs_from_bounds {A} (l : list A) i x :
  In x (refs_from i l) -> i <= fst x < i + length l.
Proof.
  revert i; induction l as [|y l IH]; intros i; simpl; [tauto|].
  intros [<-|Hin]; simpl; [lia|].
  apply IH in Hin. lia.
Qed.

Lemma filter_keep_all {A} (p : A -> bool) (l : list A) :
  (forall x, In x l -> p x = true) -> filter p l = l.
Proof.
  induction l as [|y l IH]; simpl; intros H; [reflexivity|].
  rewrite (H y) by now left. f_equal. apply IH. intros x Hx. apply H. now right.
Qed.

Lemma filter_drop_all {A} (p : A -> bool) (l : list A) :
  (forall x, In x l -> p x = false) -> filter p l = [].
Proof.
  induction l as [|y l IH]; simpl; intros H; [reflexivity|].
  rewrite (H y) by now left. apply IH. intros x Hx. apply H. now right.
Qed.

Lemma filter_metadata_none (ds : list Decorator) i :
  no_metadata ds ->
  filter (fun d => isMetadata (snd d)) (refs_from i ds) = [].
Proof.
  intros H. apply filter_drop_all. intros x Hx.
  apply (in_map snd) in Hx. rewrite refs_from_snd in Hx.
  unfold no_metadata in H. rewrite Forall_forall in H. now apply H.
Qed.

(** The first qualifying decorator is found behind any non-qualifying
    prefix, with its position as reference. *)
Lemma first_metadata pre d post :
  no_metadata pre -> isMetadata d = true ->
  hd_error (filter (fun x => isMetadata (snd x)) (refs (pre ++ d :: post)))
  = Some (length pre, d).
Proof.
  intros Hpre Hd. unfold refs. rewrite refs_from_app, filter_app.
  rewrite filter_metadata_none by assumption. simpl. now rewrite Hd.
Qed.

(** Removing the decorator referenced by its position removes exactly it. *)
Lemma filter_other_refs pre (d : Decorator) post :
  map snd (filter (fun x => negb (same_ref x (length pre, d)))
                  (refs (pre ++ d :: post)))
  = pre ++ post.
Proof.
  unfold refs, same_ref. rewrite refs_from_app, filter_app, map_app. simpl.
  rewrite Nat.eqb_refl. simpl. f_equal.
  - rewrite filter_keep_all; [apply refs_from_snd|].
    intros x Hx. apply refs_from_bounds in Hx.
    apply negb_true_iff, Nat.eqb_neq. lia.
  - rewrite filter_keep_all; [apply refs_from_snd|].
    intros x Hx. apply refs_from_bounds in Hx.
    apply negb_true_iff, Nat.eqb_neq. lia.
Qed.

Lemma filter_other_refs_length pre (d : Decorator) post :
  length (filter (fun x => negb (same_ref x (length pre, d)))
                 (refs (pre ++ d :: post)))
  = length (pre ++ post).
Proof.
  rewrite <- (filter_other_refs pre d post). now rewrite length_map.
Qed.

(** Every decorator list either has no qualifying annotation or splits at
    its first one. *)
Lemma split_first_metadata (ds : list Decorator) :
  no_metadata ds \/
  exists pre d post,
    ds = pre ++ d :: post /\ no_metadata pre /\ isMetadata d = true.
Proof.
  induction ds as [|d ds IH].
  - left. constructor.
  - destruct (isMetadata d) eqn:Hd.
    + right. exists [], d, ds. repeat split; [constructor | assumption].
    + destruct IH as [Hn | (pre & d' & post & -> & Hpre & Hd')].
      * left. now constructor.
      * right. exists (d :: pre), d', post.
        repeat split; [now constructor | assumption].
Qed.

(** ** Facts about objects *)

Lemma lookup_define k k' v l :
  lookup k (define k' v l) = if String.eqb k' k then v else lookup k l.
Proof.
  induction l as [|[k0 v0] l IH]; simpl; [reflexivity|].
  destruct (String.eqb k0 k') eqn:E0; simpl.
  - apply String.eqb_eq in E0. subst k0. now destruct (String.eqb k' k).
  - destruct (String.eqb k0 k) eqn:E1; [|exact IH].
    apply String.eqb_eq in E1. subst k0.
    rewrite String.eqb_sym in E0. now rewrite E0.
Qed.

Lemma lookup_app k l1 l2 :
  lookup k (l1 ++ l2) = if has_own k l1 then lookup k l1 else lookup k l2.
Proof.
  induction l1 as [|[k0 v0] l1 IH]; simpl; [reflexivity|].
  now destruct (String.eqb k0 k).
Qed.

Lemma has_own_app k l1 l2 :
  has_own k (l1 ++ l2) = has_own k l1 || has_own k l2.
Proof.
  induction l1 as [|[k0 v0] l1 IH]; simpl; [reflexivity|].
  now rewrite IH, orb_assoc.
Qed.

Lemma has_own_rev k l : has_own k (rev l) = has_own k l.
Proof.
  induction l as [|[k0 v0] l IH]; simpl; [reflexivity|].
  rewrite has_own_app, IH. simpl. rewrite orb_false_r. apply orb_comm.
Qed.

Lemma has_own_in k l : has_own k l = true <-> In k (map fst l).
Proof.
  induction l as [|[k0 v0] l IH]; simpl; [split; [discriminate|tauto]|].
  rewrite orb_true_iff, String.eqb_eq, IH. tauto.
Qed.

Lemma lookup_not_own k l : has_own k l = false -> lookup k l = VUndefined.
Proof.
  induction l as [|[k0 v0] l IH]; simpl; [reflexivity|].
  intros H. apply orb_false_iff in H. destruct H as [-> H]. now apply IH.
Qed.

Lemma lookup_own k l : lookup k l <> VUndefined -> has_own k l = true.
Proof.
  intros H. destruct (has_own k l) eqn:E; [reflexivity|].
  now apply lookup_not_own in E.
Qed.

(** With keys that do not repeat, reading the list backwards finds the
    same property. *)
Lemma lookup_rev k l : NoDup (map fst l) -> lookup k (rev l) = lookup k l.
Proof.
  induction l as [|[k0 v0] l IH]; simpl; [reflexivity|].
  intros Hnd. inversion Hnd as [|? ? Hnotin Hnd']; subst.
  rewrite lookup_app, has_own_rev, IH by assumption. simpl.
  destruct (String.eqb k0 k) eqn:E.
  - apply String.eqb_eq in E. subst k0.
    destruct (has_own k l) eqn:Ho; [|reflexivity].
    apply has_own_in in Ho. contradiction.
  - destruct (has_own k l) eqn:Ho; [reflexivity|].
    symmetry. now apply lookup_not_own.
Qed.

Lemma define_all_cons e entries target :
  define_all (e :: entries) target
  = define_all entries (define (fst e) (snd e) target).
Proof. reflexivity. Qed.

(** Last occurrence wins: the properties defined one after the other read
    like the entries taken last to first, then the target. *)
Lemma lookup_define_all k entries target :
  lookup k (define_all entries target) = lookup k (rev entries ++ target).
Proof.
  revert target. induction entries as [|[k0 v0] entries IH]; intros target.
  - reflexivity.
  - rewrite define_all_cons, IH. simpl fst. simpl snd. simpl rev.
    rewrite <- app_assoc.
    rewrite (lookup_app k (rev entries) (define k0 v0 target)).
    rewrite (lookup_app k (rev entries) ([(k0, v0)] ++ target)).
    simpl. now rewrite lookup_define.
Qed.

Lemma define_keys k v l k' :
  In k' (map fst (define k v l)) <-> k' = k \/ In k' (map fst l).
Proof.
  induction l as [|[k0 v0] l IH]; simpl.
  - intuition congruence.
  - destruct (String.eqb k0 k) eqn:E; simpl.
    + apply String.eqb_eq in E. subst k0. intuition congruence.
    + rewrite IH. intuition congruence.
Qed.

Lemma define_nodup k v l : NoDup (map fst l) -> NoDup (map fst (define k v l)).
Proof.
  induction l as [|[k0 v0] l IH]; simpl; intros Hnd.
  - constructor; [tauto|constructor].
  - inversion Hnd as [|? ? Hnotin Hnd']; subst.
    destruct (String.eqb k0 k) eqn:E; simpl.
    + apply String.eqb_eq in E. subst k0. now constructor.
    + constructor; [|now apply IH].
      rewrite define_keys. intros [->|Hin]; [|contradiction].
      now rewrite String.eqb_refl in E.
Qed.

Lemma assign_nodup obj k v :
  NoDup (map fst (snd obj)) -> NoDup (map fst (snd (assign obj k v))).
Proof.
  destruct obj as [proto own]. simpl. intros H.
  destruct (negb (String.eqb k "__proto__") || has_own k own); simpl;
    [now apply define_nodup|].
  destruct (find_on_chain proto); simpl; try (now apply define_nodup).
  destruct (is_object v); simpl; [assumption|].
  destruct v; simpl; assumption.
Qed.

(** A key that is not [__proto__] becomes an own property, and the
    prototype stays. *)
Lemma assign_plain proto own k v :
  k <> "__proto__" -> assign (proto, own) k v = (proto, define k v own).
Proof.
  intros Hk. unfold assign.
  destruct (String.eqb k "__proto__") eqn:E;
    [apply String.eqb_eq in E; contradiction|].
  reflexivity.
Qed.

Lemma define_all_nodup entries target :
  NoDup (map fst target) -> NoDup (map fst (define_all entries target)).
Proof.
  revert target. induction entries as [|e entries IH]; intros target H.
  - assumption.
  - rewrite define_all_cons. apply IH. now apply define_nodup.
Qed.

(** ** Facts about the extractor *)

Lemma extractValue_object properties :
  extractValue (ObjectExpression properties)
  = let? obj :=
      reduce_result extract_property properties
                    (ObjectPrototype, ([] : object)) in
    Ok (make_object obj).
Proof. reflexivity. Qed.

Lemma extractValue_array elements :
  extractValue (ArrayExpression elements)
  = let? vs := map_result extract_element elements in
    Ok (VArr vs).
Proof. reflexivity. Qed.

Lemma reduce_properties_nodup properties acc obj :
  NoDup (map fst (snd acc)) ->
  reduce_result extract_property properties acc = Ok obj ->
  NoDup (map fst (snd obj)).
Proof.
  revert acc. induction properties as [|p ps IH]; intros acc Hacc H; simpl in H.
  - now injection H as <-.
  - destruct (extract_property acc p) as [acc'|e] eqn:Hp; simpl in H;
      [|discriminate].
    apply (IH acc'); [|assumption].
    destruct p; simpl in Hp; try discriminate.
    destruct (extractValue p2) as [v|e]; simpl in Hp; [|discriminate].
    injection Hp as <-. now apply assign_nodup.
Qed.

(** The own keys of an extracted object do not repeat. *)
Lemma extractValue_own_nodup n v :
  extractValue n = Ok v ->
  match v with
  | VObj own | VObjWith _ own => NoDup (map fst own)
  | _ => True
  end.
Proof.
  destruct n.
  all: try (simpl; intros H; injection H as <-; exact I).
  - rewrite extractValue_object.
    destruct (reduce_result extract_property properties
                            (ObjectPrototype, ([] : object)))
      as [[proto own]|e] eqn:Hr; simpl; [|discriminate].
    intros H. injection H as <-.
    pose proof (reduce_properties_nodup properties (ObjectPrototype, [])
                  (proto, own) (NoDup_nil _) Hr) as Hnd.
    now destruct proto.
  - rewrite extractValue_array.
    destruct (map_result extract_element elements); simpl; [|discriminate].
    intros H. injection H as <-. exact I.
Qed.

Lemma extractValue_nodup n obj :
  extractValue n = Ok (VObj obj) -> NoDup (map fst obj).
Proof.
  intros H. exact (extractValue_own_nodup n (VObj obj) H).
Qed.

Lemma reduce_properties properties entries proto own :
  Forall2 extracts_to properties entries ->
  Forall (fun e => fst e <> "__proto__") entries ->
  reduce_result extract_property properties (proto, own)
  = Ok (proto, define_all entries own).
Proof.
  intros H. revert own. induction H as [|p e ps es Hp _ IH]; intros own Hk.
  - reflexivity.
  - inversion Hk as [|? ? Hne Hk']; subst.
    destruct Hp as (computed & v & -> & Hv).
    cbn [reduce_result extract_property]. rewrite Hv.
    cbn [rbind property_key node_name].
    rewrite assign_plain by assumption.
    rewrite IH by assumption. reflexivity.
Qed.

Lemma map_elements elements vs :
  Forall2 element_extracts_to elements vs ->
  map_result extract_element elements = Ok vs.
Proof.
  induction 1 as [|elt x elts xs (e & -> & He) _ IH]; simpl; [reflexivity|].
  rewrite He. simpl. now rewrite IH.
Qed.

(** A static literal is extracted without an exception. The induction
    follows the nesting of the syntax: through the members of an object
    literal and the elements of an array literal. *)
Lemma static_literal_extracts :
  forall n, static_literal n = true -> exists v, extractValue n = Ok v.
Proof.
  fix IH 1. intros n. destruct n; try (intros _; eexists; reflexivity).
  - intros Hs. rewrite extractValue_object.
    assert (H : forall acc,
               exists obj,
                 reduce_result extract_property properties acc = Ok obj).
    { simpl in Hs. revert properties Hs. fix go 1. intros [|p ps] Hs acc.
      - eexists; reflexivity.
      - simpl in Hs. apply andb_true_iff in Hs. destruct Hs as [Hp Hps].
        destruct p; try discriminate Hp.
        destruct p1; try discriminate Hp.
        apply andb_true_iff in Hp. destruct Hp as [_ Hv].
        destruct (IH p2 Hv) as [v Hv']. simpl. rewrite Hv'. simpl.
        apply go. exact Hps. }
    destruct (H (ObjectPrototype, ([] : object))) as [obj ->]. eexists; reflexivity.
  - intros Hs. rewrite extractValue_array.
    assert (H : exists vs, map_result extract_element elements = Ok vs).
    { simpl in Hs. revert elements Hs. fix go 1. intros [|e es] Hs.
      - eexists; reflexivity.
      - simpl in Hs. apply andb_true_iff in Hs. destruct Hs as [He Hes].
        destruct e as [x|]; [|discriminate He].
        destruct (IH x He) as [v Hv]. destruct (go es Hes) as [vs Hvs].
        simpl. rewrite Hv. simpl. rewrite Hvs. eexists; reflexivity. }
    destruct H as [vs ->]. eexists; reflexivity.
Qed.

Lemma static_properties properties :
  static_literal (ObjectExpression properties) = true ->
  exists entries,
    Forall2 extracts_to properties entries /\
    Forall (fun e => fst e <> "__proto__") entries.
Proof.
  simpl. induction properties as [|p ps IH]; simpl; intros Hs.
  - exists []. split; constructor.
  - apply andb_true_iff in Hs. destruct Hs as [Hp Hps].
    destruct p; try discriminate Hp.
    destruct p1; try discriminate Hp.
    apply andb_true_iff in Hp. destruct Hp as [Hk Hv].
    destruct (static_literal_extracts p2 Hv) as [v Hv'].
    destruct (IH Hps) as (entries & Hall & Hkeys).
    exists ((name, v) :: entries). split; constructor; try assumption.
    + exists computed, p2. now split.
    + simpl. intros ->. discriminate Hk.
Qed.

Lemma static_elements elements :
  static_literal (ArrayExpression elements) = true ->
  exists vs, Forall2 element_extracts_to elements vs.
Proof.
  simpl. induction elements as [|e es IH]; simpl; intros Hs.
  - exists []. constructor.
  - apply andb_true_iff in Hs. destruct Hs as [He Hes].
    destruct e as [x|]; [|discriminate He].
    destruct (static_literal_extracts x He) as [v Hv].
    destruct (IH Hes) as (vs & Hall).
    exists (v :: vs). constructor; [|assumption].
    exists x. now split.
Qed.

(** ** The locator *)

Lemma getMetadata_none ds : no_metadata ds -> getMetadata (refs ds) = Ok None.
Proof.
  intros H. unfold getMetadata, refs.
  now rewrite filter_metadata_none.
Qed.

Lemma getMetadata_first pre d post :
  no_metadata pre -> isMetadata d = true ->
  getMetadata (refs (pre ++ d :: post))
  = match hd_error (node_arguments (expression d)) with
    | None => Ok None
    | Some options =>
        let? args := extractValue options in
        Ok (Some ((length pre, d), args))
    end.
Proof.
  intros Hpre Hd. unfold getMetadata.
  now rewrite first_metadata.
Qed.

(** A successful match is the first qualifying decorator of the list. *)
Lemma getMetadata_some ds r args :
  getMetadata (refs ds) = Ok (Some (r, args)) ->
  exists pre d post options,
    ds = pre ++ d :: post /\ no_metadata pre /\ isMetadata d = true /\
    r = (length pre, d) /\
    hd_error (node_arguments (expression d)) = Some options /\
    extractValue options = Ok args.
Proof.
  intros H.
  destruct (split_first_metadata ds) as [Hn | (pre & d & post & -> & Hpre & Hd)].
  - rewrite getMetadata_none in H by assumption. discriminate.
  - rewrite getMetadata_first in H by assumption.
    destruct (hd_error (node_arguments (expression d))) as [options|] eqn:Ho;
      [|discriminate].
    destruct (extractValue options) as [v|e] eqn:Hv; simpl in H; [|discriminate].
    injection H as <- <-.
    exists pre, d, post, options. repeat split; assumption.
Qed.

Lemma strip_first pre d post :
  strip (length pre, d) (pre ++ d :: post)
  = match pre ++ post with
    | [] => None
    | _ :: _ => Some (pre ++ post)
    end.
Proof.
  unfold strip. rewrite filter_other_refs_length, filter_other_refs.
  now destruct (pre ++ post).
Qed.

(** ** The validator's effects *)

Section ValidatorFacts.
Context (resolve : string -> string -> string).
Context (existsSync : string -> bool).
Context (isAbsolute : string -> bool).

Lemma get_throws_TypeError :
  forall v k e, get v k = Throw e -> e = TypeError.
Proof.
  fix IH 1. intros v k e. destruct v; simpl; try discriminate.
  - intros H. injection H as <-. reflexivity.
  - intros H. injection H as <-. reflexivity.
  - destruct (has_own k props); [discriminate|].
    destruct proto as [p|]; [|discriminate]. apply IH.
Qed.

Lemma path_resolve_throws_TypeError base rel e :
  path_resolve resolve isAbsolute base rel = Throw e -> e = TypeError.
Proof.
  unfold path_resolve. destruct rel; try (intros H; now injection H as <-).
  destruct base; try discriminate;
    destruct (isAbsolute s); try discriminate;
    intros H; now injection H as <-.
Qed.

(** The three ways the validator ends. *)
Lemma validateOptions_outcome options name log r log' :
  validateOptions resolve existsSync isAbsolute options name log = (r, log') ->
  (r = Ok true /\ log' = log) \/
  (exists f, r = Ok false /\ log' = report (diagnostic f name) log) \/
  (r = Throw TypeError /\ log' = log).
Proof.
  unfold validateOptions.
  destruct (truthy (lookup "name" options)); simpl.
  2:{ cbv [bind emitError ret]. intros H. injection H as <- <-.
      right. left. now exists MissingName. }
  destruct (truthy (lookup "thumbnail" options)); simpl.
  2:{ cbv [bind emitError ret]. intros H. injection H as <- <-.
      right. left. now exists MissingThumbnail. }
  unfold bind at 1. unfold lift.
  destruct (get (lookup "env" options) "context") as [context|e] eqn:Hc;
    simpl.
  - destruct (path_resolve resolve isAbsolute context
                           (lookup "thumbnail" options))
      as [filePath|e] eqn:Hp.
    + destruct (existsSync filePath) eqn:He; simpl.
      * cbv [ret]. intros H. injection H as <- <-. now left.
      * cbv [bind emitError ret]. intros H. injection H as <- <-.
        right. left. now exists (ThumbnailNotFound filePath).
    + intros H. injection H as <- <-. right. right.
      now rewrite (path_resolve_throws_TypeError _ _ _ Hp).
  - intros H. injection H as <- <-. right. right.
    now rewrite (get_throws_TypeError _ _ _ Hc).
Qed.

Lemma validateOptions_files options name log r log' :
  validateOptions resolve existsSync isAbsolute options name log = (r, log') ->
  files log' = files log.
Proof.
  intros H.
  destruct (validateOptions_outcome _ _ _ _ _ H)
    as [[_ ->] | [(f & _ & ->) | [_ ->]]]; reflexivity.
Qed.

Lemma validateOptions_errors options name log r log' :
  validateOptions resolve existsSync isAbsolute options name log = (r, log') ->
  length (errors log') <= S (length (errors log)).
Proof.
  intros H.
  destruct (validateOptions_outcome _ _ _ _ _ H)
    as [[_ ->] | [(f & _ & ->) | [_ ->]]]; simpl;
    rewrite ?length_app; simpl; lia.
Qed.

(** The validator against the rules, when nothing can throw. *)
Lemma validateOptions_rules options env context name log :
  lookup "env" options = VObj env ->
  lookup "context" env = VStr context ->
  string_or_falsy (lookup "thumbnail" options) = true ->
  validateOptions resolve existsSync isAbsolute options name log
  = match first_failure resolve existsSync options context with
    | None => (Ok true, log)
    | Some f => (Ok false, report (diagnostic f name) log)
    end.
Proof.
  intros Henv Hctx Hthumb.
  unfold validateOptions, first_failure.
  destruct (truthy (lookup "name" options)); simpl; [|reflexivity].
  destruct (lookup "thumbnail" options) as [| |b|z|s|l|o|p o] eqn:Ht;
    simpl in Hthumb |- *; try reflexivity; try discriminate.
  - destruct b; [discriminate|reflexivity].
  - destruct (PrimFloat.eqb z 0 || PrimFloat.is_nan z);
      [reflexivity|discriminate].
  - destruct (String.eqb s ""); simpl; [reflexivity|].
    unfold bind at 1. unfold lift. rewrite Henv. simpl. rewrite Hctx. simpl.
    destruct (existsSync (resolve context s)); reflexivity.
Qed.
End ValidatorFacts.

(** ** The visitor, by cases on what the locator returns *)

Section VisitorFacts.
Context (resolve : string -> string -> string).
Context (existsSync : string -> bool).
Context (stringify : JS.value -> string).
Context (isAbsolute : string -> bool).
Context (ToString : JS.value -> option string).

Let node := visitNode resolve existsSync stringify isAbsolute ToString.
Let visit := visitClass resolve existsSync stringify isAbsolute ToString.
Let validate := validateOptions resolve existsSync isAbsolute.

Lemma visit_of_node context c log :
  visit context c log
  = match node context c log with
    | (Ok _, c', log') => (Ok c', log')
    | (Throw e, _, log') => (Throw e, log')
    end.
Proof. reflexivity. Qed.

Lemma node_anonymous context c log :
  id c = None -> node context c log = (Throw TypeError, c, log).
Proof.
  intros Hid. unfold node, visitNode. now rewrite Hid.
Qed.

Lemma node_absent context c name log :
  id c = Some name ->
  getMetadata (refs (decorators_or_empty c)) = Ok None ->
  node context c log = (Ok tt, c, log).
Proof.
  intros Hid Hg. unfold node, visitNode. now rewrite Hid, Hg.
Qed.

Lemma node_unreadable context c name e log :
  id c = Some name ->
  getMetadata (refs (decorators_or_empty c)) = Throw e ->
  node context c log = (Throw e, c, log).
Proof.
  intros Hid Hg. unfold node, visitNode. now rewrite Hid, Hg.
Qed.

(** After a match the node is rewritten whatever the validator says. *)
Lemma node_matched context c name log r args verdict log' :
  id c = Some name ->
  getMetadata (refs (decorators_or_empty c)) = Ok (Some (r, args)) ->
  validate (makeOptions name args context) name log = (verdict, log') ->
  node context c log
  = (fst (conclude ToString stringify (makeOptions name args context)
                   verdict log'),
     set_decorators c (strip r (decorators_or_empty c)),
     snd (conclude ToString stringify (makeOptions name args context)
                   verdict log')).
Proof.
  intros Hid Hg Hv. unfold node, visitNode. rewrite Hid, Hg.
  fold validate. rewrite Hv. unfold conclude.
  destruct verdict as [[|]|e]; [|reflexivity|reflexivity].
  destruct (to_string ToString
                      (lookup "name" (makeOptions name args context)));
    reflexivity.
Qed.

Lemma node_first_matched context c name pre d post options args
      verdict log log' :
  id c = Some name ->
  decorators c = Some (pre ++ d :: post) ->
  no_metadata pre ->
  isMetadata d = true ->
  hd_error (node_arguments (expression d)) = Some options ->
  extractValue options = Ok args ->
  validate (makeOptions name args context) name log = (verdict, log') ->
  node context c log
  = (fst (conclude ToString stringify (makeOptions name args context)
                   verdict log'),
     with_decorators c (pre ++ post),
     snd (conclude ToString stringify (makeOptions name args context)
                   verdict log')).
Proof.
  intros Hid Hds Hpre Hd Hopt Hargs Hv.
  assert (Hg : getMetadata (refs (decorators_or_empty c))
               = Ok (Some ((length pre, d), args))).
  { unfold decorators_or_empty. rewrite Hds.
    rewrite getMetadata_first by assumption. rewrite Hopt.
    now rewrite Hargs. }
  rewrite (node_matched context c name log _ _ _ _ Hid Hg Hv).
  unfold decorators_or_empty. rewrite Hds, strip_first.
  unfold with_decorators, set_decorators. now destruct (pre ++ post).
Qed.

Lemma visit_absent context c name log :
  id c = Some name ->
  getMetadata (refs (decorators_or_empty c)) = Ok None ->
  visit context c log = (Ok c, log).
Proof.
  intros Hid Hg. rewrite visit_of_node.
  now rewrite (node_absent context c name log Hid Hg).
Qed.

Lemma visit_anonymous context c log :
  id c = None -> visit context c log = (Throw TypeError, log).
Proof.
  intros Hid. rewrite visit_of_node. now rewrite node_anonymous.
Qed.

(** The two ways a class whose first qualifying decorator is [d] can be
    visited to completion. *)
Lemma visit_first_absent context c name pre d post log :
  id c = Some name ->
  decorators c = Some (pre ++ d :: post) ->
  no_metadata pre ->
  isMetadata d = true ->
  node_arguments (expression d) = [] ->
  visit context c log = (Ok c, log).
Proof.
  intros Hid Hds Hpre Hd Hargs.
  apply visit_absent with (name := name); [assumption|].
  unfold decorators_or_empty. rewrite Hds.
  rewrite getMetadata_first by assumption. now rewrite Hargs.
Qed.

Lemma visit_first_matched context c name pre d post options args
      verdict log log' :
  id c = Some name ->
  decorators c = Some (pre ++ d :: post) ->
  no_metadata pre ->
  isMetadata d = true ->
  hd_error (node_arguments (expression d)) = Some options ->
  extractValue options = Ok args ->
  validate (makeOptions name args context) name log = (verdict, log') ->
  visit context c log
  = match conclude ToString stringify (makeOptions name args context)
                   verdict log' with
    | (Ok _, l) => (Ok (with_decorators c (pre ++ post)), l)
    | (Throw e, l) => (Throw e, l)
    end.
Proof.
  intros Hid Hds Hpre Hd Hopt Hargs Hv. rewrite visit_of_node.
  rewrite (node_first_matched context c name pre d post options args
             verdict log log' Hid Hds Hpre Hd Hopt Hargs Hv).
  destruct (conclude ToString stringify (makeOptions name args context)
                     verdict log') as [[u|e] l]; reflexivity.
Qed.

(** Every visit, by cases: the node after it and how it ended. *)
Lemma node_cases context c log outcome c' log' :
  node context c log = (outcome, c', log') ->
  (c' = c /\ log' = log /\
   (id c = None \/
    exists r, getMetadata (refs (decorators_or_empty c)) = r /\
              (r = Ok None /\ outcome = Ok tt \/
               exists e, r = Throw e /\ outcome = Throw e))) \/
  (exists name r args verdict l,
      id c = Some name /\
      getMetadata (refs (decorators_or_empty c)) = Ok (Some (r, args)) /\
      validate (makeOptions name args context) name log = (verdict, l) /\
      c' = set_decorators c (strip r (decorators_or_empty c)) /\
      (outcome, log')
      = conclude ToString stringify (makeOptions name args context)
                 verdict l).
Proof.
  unfold node, visitNode. destruct (id c) as [name|] eqn:Hid.
  2:{ intros H. injection H as _ <- <-. left. auto. }
  destruct (getMetadata (refs (decorators_or_empty c)))
    as [[[r args]|]|e] eqn:Hg.
  - destruct (validateOptions resolve existsSync isAbsolute
                (makeOptions name args context) name log)
      as [verdict l] eqn:Hv.
    intros H. right. exists name, r, args, verdict, l.
    split; [reflexivity|]. split; [reflexivity|]. split; [exact Hv|].
    unfold conclude.
    destruct verdict as [[|]|e].
    + destruct (to_string ToString
                          (lookup "name" (makeOptions name args context)));
        injection H as <- <- <-; split; reflexivity.
    + injection H as <- <- <-. split; reflexivity.
    + injection H as <- <- <-. split; reflexivity.
  - intros H. injection H as <- <- <-. left.
    split; [reflexivity|]. split; [reflexivity|]. right.
    eexists. split; [reflexivity|]. left. split; reflexivity.
  - intros H. injection H as <- <- <-. left.
    split; [reflexivity|]. split; [reflexivity|]. right.
    eexists. split; [reflexivity|]. right. exists e. split; reflexivity.
Qed.

(** A visit that completes has either left the class alone or stripped
    the first qualifying decorator. *)
Lemma visit_completed context c log c' log' :
  visit context c log = (Ok c', log') ->
  exists name,
    id c = Some name /\
    ((c' = c /\ log' = log /\
      getMetadata (refs (decorators_or_empty c)) = Ok None) \/
     (exists r args,
        getMetadata (refs (decorators_or_empty c)) = Ok (Some (r, args)) /\
        c' = set_decorators c (strip r (decorators_or_empty c)))).
Proof.
  rewrite visit_of_node.
  destruct (node context c log) as [[outcome c1] l1] eqn:Hn.
  destruct outcome as [u|e]; [|discriminate].
  intros H. injection H as <- <-.
  destruct (node_cases _ _ _ _ _ _ Hn)
    as [(-> & -> & [Hid | (r & Hg & [[-> _] | (e & _ & He)])])
       | (name & r & args & verdict & l & Hid & Hg & _ & -> & _)].
  - unfold node in Hn. rewrite node_anonymous in Hn by assumption.
    discriminate Hn.
  - destruct (id c) as [name|] eqn:Hid.
    + exists name. split; [reflexivity|]. left. auto.
    + unfold node in Hn. rewrite node_anonymous in Hn by assumption.
      discriminate Hn.
  - discriminate He.
  - exists name. split; [assumption|]. right. now exists r, args.
Qed.
End VisitorFacts.

Section VisitorBounds.
Context (resolve : string -> string -> string).
Context (existsSync : string -> bool).
Context (stringify : JS.value -> string).
Context (isAbsolute : string -> bool).
Context (ToString : JS.value -> option string).

(** The visitor's log, by cases. *)
Lemma visit_outcome context c log r log' :
  visitClass resolve existsSync stringify isAbsolute ToString context c log
  = (r, log') ->
  log' = log \/
  (exists f name, id c = Some name /\ log' = report (diagnostic f name) log) \/
  (exists name args file,
      id c = Some name /\
      validateOptions resolve existsSync isAbsolute
                      (makeOptions name args context) name log
      = (Ok true, log) /\
      to_string ToString (lookup "name" (makeOptions name args context))
      = Ok file /\
      log' = emitted (file ++ ".component.json")%string
                     (stringify (VObj (makeOptions name args context))) log).
Proof.
  rewrite visit_of_node.
  destruct (visitNode resolve existsSync stringify isAbsolute ToString
                      context c log) as [[outcome c1] l1] eqn:Hn.
  intros H.
  assert (Hl : log' = l1) by (destruct outcome; now injection H as _ <-).
  subst l1. clear H.
  destruct (node_cases _ _ _ _ _ _ _ _ _ _ _ Hn)
    as [(_ & -> & _)
       | (name & d & args & verdict & l & Hid & _ & Hv & _ & Hc)];
    [now left|].
  destruct (validateOptions_outcome _ _ _ _ _ _ _ _ Hv)
    as [[-> ->] | [(f & -> & ->) | [-> ->]]]; unfold conclude in Hc.
  - destruct (to_string ToString
                        (lookup "name" (makeOptions name args context)))
      as [file|e] eqn:Hs; injection Hc as _ ->; [|now left].
    right. right. exists name, args, file. repeat split; assumption.
  - injection Hc as _ ->. right. left. now exists f, name.
  - injection Hc as _ ->. now left.
Qed.

(** One visit emits at most one file and reports at most one error. *)
Lemma visit_log_bounds context c log r log' :
  visitClass resolve existsSync stringify isAbsolute ToString context c log
  = (r, log') ->
  length (files log') <= S (length (files log)) /\
  length (errors log') <= S (length (errors log)).
Proof.
  intros H.
  destruct (visit_outcome _ _ _ _ _ H)
    as [-> | [(f & name & _ & ->) | (name & args & file & _ & _ & _ & ->)]];
    simpl; rewrite ?length_app; simpl; lia.
Qed.

(** The traversal rebuilds the file around the visited classes. *)
Lemma traverse_class visit c rest log :
  traverse visit (Class c :: rest) log
  = match visit c log with
    | (Ok c', log') =>
        match traverse visit rest log' with
        | (Ok rest', l) => (Ok (Class c' :: rest'), l)
        | (Throw e, l) => (Throw e, l)
        end
    | (Throw e, log') => (Throw e, log')
    end.
Proof.
  simpl. unfold bind at 1. destruct (visit c log) as [[c'|e] log']; [|reflexivity].
  unfold bind at 1. now destruct (traverse visit rest log') as [[rest'|e] l].
Qed.

Lemma traverse_other visit code rest log :
  traverse visit (Other code :: rest) log
  = match traverse visit rest log with
    | (Ok rest', l) => (Ok (Other code :: rest'), l)
    | (Throw e, l) => (Throw e, l)
    end.
Proof.
  simpl. unfold bind at 1. now destruct (traverse visit rest log) as [[rest'|e] l].
Qed.

Lemma traverse_anonymous context ast c log :
  In (Class c) ast -> id c = None ->
  exists e log',
    traverse (visitClass resolve existsSync stringify isAbsolute ToString context) ast log
    = (Throw e, log').
Proof.
  revert log. induction ast as [|s ast IH]; intros log Hin Hid; [destruct Hin|].
  destruct s as [c0|code].
  - rewrite traverse_class.
    destruct (visitClass resolve existsSync stringify isAbsolute ToString context c0 log)
      as [[c'|e] log'] eqn:Hv.
    + destruct Hin as [Heq|Hin].
      * injection Heq as ->. rewrite visit_anonymous in Hv by assumption.
        discriminate.
      * destruct (IH log' Hin Hid) as (e & l & ->). now exists e, l.
    + now exists e, log'.
  - rewrite traverse_other. destruct Hin as [Heq|Hin]; [discriminate|].
    destruct (IH log Hin Hid) as (e & l & ->). now exists e, l.
Qed.

End VisitorBounds.

(** ** The statements of the specification *)

(** C2, as stated, does not hold: a template string is none of the
    documented shapes, yet it is not extracted as [null]. Its type name
    ends in [Literal] and the node has no [value] field, so the extractor
    returns [undefined]. *)
Lemma template_literal_is_not_null :
  ~ (forall n, recognized_shape n = false -> extractValue n = Ok VNull).
Proof.
  intros H. specialize (H (TemplateLiteral ["hello"] []) eq_refl).
  discriminate H.
Qed.

(** C2, amended: on a node that is none of the documented shapes the
    extractor never raises an error, and it returns [null] unless the
    node's type name ends in [Literal] (template strings, regular
    expressions, BigInt literals); it then returns the node's [value]
    field, [undefined] where the node has none. *)
Theorem extractValue_other_shapes n :
  recognized_shape n = false ->
  (exists v, extractValue n = Ok v) /\
  (endsWith (node_type n) "Literal" = false -> extractValue n = Ok VNull) /\
  (endsWith (node_type n) "Literal" = true ->
   extractValue n = Ok (node_value n)).
Proof.
  intros Hshape.
  destruct n; simpl in *; try discriminate;
    (split; [eexists; reflexivity|];
     split; intros H; try reflexivity; discriminate H).
Qed.

Lemma extractValue_other_shapes_witness :
  extractValue (TemplateLiteral ["hello"] []) = Ok VUndefined /\
  extractValue (CallExpression (Identifier "require") [StringLiteral "./x"])
  = Ok VNull.
Proof.
  split.
  - apply (proj2 (proj2 (extractValue_other_shapes
                           (TemplateLiteral ["hello"] []) eq_refl))).
    reflexivity.
  - apply (proj1 (proj2 (extractValue_other_shapes
                           (CallExpression (Identifier "require")
                                           [StringLiteral "./x"])
                           eq_refl))).
    reflexivity.
Defined.

(** C9: when the first qualifying annotation of a class is a call without
    arguments, the locator answers "absent" whatever follows it, and the
    visit changes nothing: same class node, no file, no error. *)
Theorem empty_arguments_signal_absent
        (resolve : string -> string -> string) (existsSync : string -> bool)
        (stringify : JS.value -> string) (isAbsolute : string -> bool)
        (ToString : JS.value -> option string) context c name pre d post log :
  id c = Some name ->
  decorators c = Some (pre ++ d :: post) ->
  no_metadata pre ->
  isMetadata d = true ->
  node_arguments (expression d) = [] ->
  getMetadata (refs (pre ++ d :: post)) = Ok None /\
  visitClass resolve existsSync stringify isAbsolute ToString context c log = (Ok c, log).
Proof.
  intros Hid Hds Hpre Hd Hargs. split.
  - rewrite getMetadata_first by assumption. now rewrite Hargs.
  - now apply visit_first_absent with (name := name) (pre := pre) (d := d)
                                      (post := post).
Qed.

Lemma empty_arguments_signal_absent_witness :
  getMetadata (refs (decorators_or_empty Examples.Empty)) = Ok None /\
  Examples.run_visit Examples.Empty Examples.log0
  = (Ok Examples.Empty, Examples.log0).
Proof.
  apply (empty_arguments_signal_absent
           Examples.resolve Examples.existsSync Examples.show Examples.isAbsolute
           Examples.ToString Examples.context
           Examples.Empty "Empty" [Examples.observer] (Examples.Metadata [])
           [Examples.Metadata [Examples.test_args]]).
  - reflexivity.
  - reflexivity.
  - repeat constructor.
  - reflexivity.
  - reflexivity.
Defined.

(** C10: the visitor reads [node.id.name] before anything else, so a file
    containing a class declaration without identifier makes the whole
    transform throw; no text is returned, whether or not the class is
    annotated. *)
Theorem anonymous_class_aborts_transform
        {Text : Type} (parse : Text -> option File) (generate : File -> Text)
        (resolve : string -> string -> string) (existsSync : string -> bool)
        (stringify : JS.value -> string) (isAbsolute : string -> bool)
        (ToString : JS.value -> option string) context source ast c log :
  parse source = Some ast ->
  In (Class c) ast ->
  id c = None ->
  visitClass resolve existsSync stringify isAbsolute ToString context c log = (Throw TypeError, log)
  /\ exists e log',
      transform parse generate resolve existsSync stringify isAbsolute ToString context source log
      = (Throw e, log').
Proof.
  intros Hparse Hin Hid. split; [now apply visit_anonymous|].
  unfold transform. rewrite Hparse.
  destruct (traverse_anonymous resolve existsSync stringify isAbsolute
              ToString context ast c log Hin Hid) as (e & log' & Ht).
  exists e, log'. unfold bind. now rewrite Ht.
Qed.

Lemma anonymous_class_aborts_transform_witness :
  exists e log',
    Examples.run [Class (Examples.bare "Plain"); Class Examples.anonymous]
                 Examples.log0
    = (Throw e, log').
Proof.
  apply (anonymous_class_aborts_transform
           Examples.parse Examples.generate Examples.resolve
           Examples.existsSync Examples.show Examples.isAbsolute
           Examples.ToString Examples.context
           [Class (Examples.bare "Plain"); Class Examples.anonymous]
           [Class (Examples.bare "Plain"); Class Examples.anonymous]
           Examples.anonymous Examples.log0).
  - reflexivity.
  - right. left. reflexivity.
  - reflexivity.
Defined.

(** C4: once the locator has matched an annotation, the visit removes it
    from the class node whatever the validator then does (accepts,
    rejects or throws): the node is left with the other decorators, or
    without the attribute when there is none. When validation rejects, no
    file is emitted for the class and the traversal goes on with the
    classes that follow. *)
Theorem matched_annotation_always_stripped
        (resolve : string -> string -> string) (existsSync : string -> bool)
        (stringify : JS.value -> string) (isAbsolute : string -> bool)
        (ToString : JS.value -> option string)
        context c name pre d post options args verdict log log' rest :
  id c = Some name ->
  decorators c = Some (pre ++ d :: post) ->
  no_metadata pre ->
  isMetadata d = true ->
  hd_error (node_arguments (expression d)) = Some options ->
  extractValue options = Ok args ->
  validateOptions resolve existsSync isAbsolute
                  (makeOptions name args context) name log
  = (verdict, log') ->
  let node := visitNode resolve existsSync stringify isAbsolute ToString
                        context in
  let visit := visitClass resolve existsSync stringify isAbsolute ToString
                          context in
  let stripped := {| id := id c;
                     decorators := match pre ++ post with
                                   | [] => None
                                   | _ :: _ => Some (pre ++ post)
                                   end;
                     superClass := superClass c;
                     body := body c |} in
  (exists outcome log'', node c log = (outcome, stripped, log'')) /\
  (verdict = Ok false ->
   node c log = (Ok tt, stripped, log') /\
   files log' = files log /\
   traverse visit (Class c :: rest) log
   = match traverse visit rest log' with
     | (Ok rest', l) => (Ok (Class stripped :: rest'), l)
     | (Throw e, l) => (Throw e, l)
     end).
Proof.
  intros Hid Hds Hpre Hd Hopt Hargs Hv node visit stripped.
  pose proof (node_first_matched resolve existsSync stringify isAbsolute
                ToString context c name pre d post options args verdict
                log log' Hid Hds Hpre Hd Hopt Hargs Hv) as Hnode.
  split.
  - eexists. eexists. exact Hnode.
  - intros ->. split; [exact Hnode|].
    split; [eapply validateOptions_files; eassumption|].
    rewrite traverse_class. unfold visit at 1. rewrite visit_of_node.
    rewrite Hnode. reflexivity.
Qed.

Lemma matched_annotation_always_stripped_witness :
  Examples.run_node Examples.Card Examples.log0
  = (Ok tt, Examples.bare "Card",
     report "thumbnail must be specified for Card" Examples.log0) /\
  Examples.run [Class Examples.Card; Class Examples.TestComponent]
               Examples.log0
  = (Ok [Class (Examples.bare "Card"); Class (Examples.bare "TestComponent")],
     emitted "TestComponent.component.json"
             (Examples.show
                (VObj (makeOptions "TestComponent"
                         (VObj [("thumbnail", VStr "./sample.png");
                                ("description", VStr "A Test Component");
                                ("props", VObj [("title", VStr "string")])])
                         Examples.context)))
             (report "thumbnail must be specified for Card" Examples.log0)).
Proof.
  destruct (matched_annotation_always_stripped
              Examples.resolve Examples.existsSync Examples.show
              Examples.isAbsolute Examples.ToString
              Examples.context Examples.Card "Card" []
              (Examples.Metadata [Examples.no_thumbnail_args]) []
              Examples.no_thumbnail_args
              (VObj [("description", VStr "A card")]) (Ok false)
              Examples.log0
              (report "thumbnail must be specified for Card" Examples.log0)
              [Class Examples.TestComponent]
              eq_refl eq_refl (Forall_nil _) eq_refl eq_refl eq_refl eq_refl)
    as (_ & Hrejected).
  destruct (Hrejected eq_refl) as (Hnode & _ & Hrest).
  split; [exact Hnode | reflexivity].
Defined.

(** C6, as stated, does not hold: when the first qualifying annotation is
    called without argument, it is not removed. The class below carries
    [@Metadata()] and then a valid [@Metadata({...})]: the visit leaves
    both attached and emits nothing. *)
Lemma first_annotation_without_argument_stays :
  Examples.run_node
    (Examples.class "Twice"
       [Examples.Metadata []; Examples.Metadata [Examples.test_args]])
    Examples.log0
  = (Ok tt,
     Examples.class "Twice"
       [Examples.Metadata []; Examples.Metadata [Examples.test_args]],
     Examples.log0) /\
  isMetadata (Examples.Metadata []) = true /\
  hd_error (decorators_or_empty
              (Examples.class "Twice"
                 [Examples.Metadata [];
                  Examples.Metadata [Examples.test_args]]))
  = Some (Examples.Metadata []).
Proof.
  repeat split.
Qed.

(** C6, amended: on a class with two or more qualifying annotations the
    first of which is called with an argument the extractor reads, only
    that first one is honored. Whatever the validator says, the visit
    removes it and nothing else: the node keeps every other decorator in
    order, so every later qualifying annotation stays attached. The visit
    emits at most one file, and that file serialises the record built from
    the first annotation's argument; it reports at most one error, about
    that record. *)
Theorem only_first_metadata_honored
        (resolve : string -> string -> string) (existsSync : string -> bool)
        (stringify : JS.value -> string) (isAbsolute : string -> bool)
        (ToString : JS.value -> option string)
        context c name pre d post options args verdict log log' :
  id c = Some name ->
  decorators c = Some (pre ++ d :: post) ->
  no_metadata pre ->
  isMetadata d = true ->
  Exists (fun x => isMetadata x = true) post ->
  hd_error (node_arguments (expression d)) = Some options ->
  extractValue options = Ok args ->
  validateOptions resolve existsSync isAbsolute
                  (makeOptions name args context) name log
  = (verdict, log') ->
  let record := makeOptions name args context in
  exists outcome log'',
    visitNode resolve existsSync stringify isAbsolute ToString context c log
    = (outcome,
       {| id := id c; decorators := Some (pre ++ post);
          superClass := superClass c; body := body c |},
       log'') /\
    (log'' = log' \/
     exists file,
       verdict = Ok true /\
       to_string ToString (lookup "name" record) = Ok file /\
       log'' = emitted (file ++ ".component.json")%string
                       (stringify (VObj record)) log') /\
    (verdict = Ok true ->
     forall file,
       to_string ToString (lookup "name" record) = Ok file ->
       outcome = Ok tt /\
       log'' = emitted (file ++ ".component.json")%string
                       (stringify (VObj record)) log') /\
    files log' = files log /\
    (errors log' = errors log \/
     exists f, verdict = Ok false /\
               errors log' = errors log ++ [diagnostic f name]).
Proof.
  intros Hid Hds Hpre Hd Hpost Hopt Hargs Hv record.
  pose proof (node_first_matched resolve existsSync stringify isAbsolute
                ToString context c name pre d post options args verdict
                log log' Hid Hds Hpre Hd Hopt Hargs Hv) as Hnode.
  assert (Hkept : with_decorators c (pre ++ post)
                  = {| id := id c; decorators := Some (pre ++ post);
                       superClass := superClass c; body := body c |}).
  { unfold with_decorators. destruct (pre ++ post) eqn:E; [|reflexivity].
    apply app_eq_nil in E. destruct E as [_ ->]. inversion Hpost. }
  rewrite Hkept in Hnode. fold record in Hnode.
  eexists. eexists. split; [exact Hnode|].
  split; [|split; [|split]].
  - unfold conclude. destruct verdict as [[|]|e]; [|now left|now left].
    destruct (to_string ToString (lookup "name" record)) as [file|e];
      [|now left].
    right. exists file. repeat split.
  - intros -> file Hfile. unfold conclude. rewrite Hfile. split; reflexivity.
  - eapply validateOptions_files; eassumption.
  - destruct (validateOptions_outcome _ _ _ _ _ _ _ _ Hv)
      as [[-> ->] | [(f & -> & ->) | [-> ->]]].
    + now left.
    + right. now exists f.
    + now left.
Qed.

Lemma only_first_metadata_honored_witness :
  Examples.run_node Examples.Twice Examples.log0
  = (Ok tt,
     Examples.class "Twice" [Examples.Metadata [Examples.test_args]],
     emitted "Twice.component.json"
             (Examples.show
                (VObj (makeOptions "Twice"
                         (VObj [("thumbnail", VStr "./sample.png");
                                ("description", VStr "A Test Component");
                                ("props", VObj [("title", VStr "string")])])
                         Examples.context)))
             Examples.log0).
Proof.
  destruct (only_first_metadata_honored
              Examples.resolve Examples.existsSync Examples.show
              Examples.isAbsolute Examples.ToString
              Examples.context Examples.Twice "Twice" []
              (Examples.Metadata [Examples.test_args])
              [Examples.Metadata [Examples.test_args]]
              Examples.test_args
              (VObj [("thumbnail", VStr "./sample.png");
                     ("description", VStr "A Test Component");
                     ("props", VObj [("title", VStr "string")])])
              (Ok true) Examples.log0 Examples.log0
              eq_refl eq_refl (Forall_nil _) eq_refl
              (Exists_cons_hd (fun x => isMetadata x = true)
                              (Examples.Metadata [Examples.test_args]) []
                              eq_refl)
              eq_refl eq_refl eq_refl)
    as (outcome & log'' & Hnode & _ & Hemit & _).
  destruct (Hemit eq_refl "Twice" eq_refl) as [-> ->].
  exact Hnode.
Defined.

(** ** The rewrite, as described and as done *)

Lemma split_first_found pre d post :
  no_metadata pre -> isMetadata d = true ->
  split_first (pre ++ d :: post) = Some (pre, d, post).
Proof.
  intros Hpre Hd. induction Hpre as [|x pre Hx _ IH]; simpl.
  - now rewrite Hd.
  - now rewrite Hx, IH.
Qed.

Lemma split_first_none ds : no_metadata ds -> split_first ds = None.
Proof.
  induction 1 as [|x ds Hx _ IH]; simpl; [reflexivity|]. now rewrite Hx, IH.
Qed.

Lemma split_first_sound ds pre d post :
  split_first ds = Some (pre, d, post) ->
  ds = pre ++ d :: post /\ no_metadata pre /\ isMetadata d = true.
Proof.
  intros H.
  destruct (split_first_metadata ds)
    as [Hn | (pre' & d' & post' & -> & Hpre & Hd)].
  - rewrite split_first_none in H by assumption. discriminate.
  - rewrite split_first_found in H by assumption.
    injection H as <- <- <-. auto.
Qed.

Lemma rewritten_absent c :
  getMetadata (refs (decorators_or_empty c)) = Ok None -> rewritten c = c.
Proof.
  unfold rewritten, decorators_or_empty.
  destruct (decorators c) as [ds|]; [|reflexivity].
  intros H.
  destruct (split_first_metadata ds)
    as [Hn | (pre & d & post & -> & Hpre & Hd)].
  - now rewrite split_first_none.
  - rewrite split_first_found by assumption.
    rewrite getMetadata_first in H by assumption.
    destruct (node_arguments (expression d)) as [|options more];
      [reflexivity|].
    simpl in H. destruct (extractValue options); discriminate.
Qed.

Lemma rewritten_matched c r args :
  getMetadata (refs (decorators_or_empty c)) = Ok (Some (r, args)) ->
  set_decorators c (strip r (decorators_or_empty c)) = rewritten c.
Proof.
  intros H.
  destruct (getMetadata_some _ _ _ H)
    as (pre & d & post & options & Hds & Hpre & Hd & -> & Hopt & _).
  rewrite Hds, strip_first. unfold rewritten.
  unfold decorators_or_empty in Hds.
  destruct (decorators c) as [ds|]; [subst ds|].
  - rewrite split_first_found by assumption.
    destruct (node_arguments (expression d)); [discriminate|].
    unfold with_decorators, set_decorators. now destruct (pre ++ post).
  - destruct pre; discriminate.
Qed.

Lemma rewritten_frame c :
  id (rewritten c) = id c /\
  superClass (rewritten c) = superClass c /\
  body (rewritten c) = body c /\
  (decorators (rewritten c) = Some [] -> decorators c = Some []) /\
  (rewritten c = c \/
   exists pre d post,
     decorators c = Some (pre ++ d :: post) /\
     no_metadata pre /\ isMetadata d = true /\
     node_arguments (expression d) <> [] /\
     decorators (rewritten c) = match pre ++ post with
                                | [] => None
                                | _ :: _ => Some (pre ++ post)
                                end).
Proof.
  assert (Hsame : rewritten c = c ->
                  id (rewritten c) = id c /\
                  superClass (rewritten c) = superClass c /\
                  body (rewritten c) = body c /\
                  (decorators (rewritten c) = Some [] ->
                   decorators c = Some []) /\
                  (rewritten c = c \/
                   exists pre d post,
                     decorators c = Some (pre ++ d :: post) /\
                     no_metadata pre /\ isMetadata d = true /\
                     node_arguments (expression d) <> [] /\
                     decorators (rewritten c)
                     = match pre ++ post with
                       | [] => None
                       | _ :: _ => Some (pre ++ post)
                       end)).
  { intros E. rewrite E. repeat split; auto. }
  unfold rewritten in *. destruct (decorators c) as [ds|] eqn:Hds.
  2:{ now apply Hsame. }
  destruct (split_first ds) as [[[pre d] post]|] eqn:Hs.
  2:{ now apply Hsame. }
  destruct (node_arguments (expression d)) as [|options more] eqn:Ha.
  { now apply Hsame. }
  clear Hsame.
  apply split_first_sound in Hs. destruct Hs as (-> & Hpre & Hd).
  simpl. split; [reflexivity|]. split; [reflexivity|]. split; [reflexivity|].
  split.
  - destruct (pre ++ post); discriminate.
  - right. exists pre, d, post.
    split; [reflexivity|]. split; [assumption|]. split; [assumption|].
    split; [|reflexivity]. rewrite Ha. discriminate.
Qed.

Section Rewriter.
Context (resolve : string -> string -> string).
Context (existsSync : string -> bool).
Context (stringify : JS.value -> string).
Context (isAbsolute : string -> bool).
Context (ToString : JS.value -> option string).
Context (context : string).

Lemma node_rewritten c log outcome c' log' :
  visitNode resolve existsSync stringify isAbsolute ToString context c log
  = (outcome, c', log') ->
  c' = rewritten c \/ (c' = c /\ exists e, outcome = Throw e).
Proof.
  intros H.
  destruct (node_cases _ _ _ _ _ _ _ _ _ _ _ H)
    as [(-> & _ & [Hid | (r & Hg & [[-> _] | (e & -> & ->)])])
       | (name & r & args & verdict & l & _ & Hg & _ & -> & _)].
  - right. split; [reflexivity|].
    rewrite (node_anonymous resolve existsSync stringify isAbsolute
               ToString context c log Hid) in H.
    injection H as <- _. now exists TypeError.
  - left. symmetry. now apply rewritten_absent.
  - right. split; [reflexivity|]. now exists e.
  - left. now apply rewritten_matched with (args := args).
Qed.

Lemma traverse_rewritten ast log ast' log' :
  traverse (visitClass resolve existsSync stringify isAbsolute ToString
                       context) ast log = (Ok ast', log') ->
  ast' = map rewritten_statement ast.
Proof.
  revert log ast' log'. induction ast as [|s ast IH]; intros log ast' log' H.
  - cbv [traverse ret] in H. now injection H as <- _.
  - destruct s as [c|code].
    + rewrite traverse_class in H. rewrite visit_of_node in H.
      destruct (visitNode resolve existsSync stringify isAbsolute ToString
                          context c log) as [[outcome c1] l1] eqn:Hn.
      destruct outcome as [u|e]; [|discriminate].
      destruct (traverse _ ast l1) as [[rest'|e] l2] eqn:Ht; [|discriminate].
      injection H as <- _. simpl. f_equal; [|exact (IH _ _ _ Ht)].
      destruct (node_rewritten _ _ _ _ _ Hn) as [-> | [_ [e He]]];
        [reflexivity | discriminate He].
    + rewrite traverse_other in H.
      destruct (traverse _ ast log) as [[rest'|e] l2] eqn:Ht; [|discriminate].
      injection H as <- _. simpl. f_equal. exact (IH _ _ _ Ht).
Qed.
End Rewriter.

(** C7: the rewrite touches nothing but the decorator list of a matched
    class. The node a visit leaves is the class as the rewriter is
    described to leave it ([rewritten]), or the untouched class when the
    visit threw before rewriting; the tree a traversal returns is the
    parsed tree with every class rewritten so, statement by statement.
    The described rewrite keeps identifier, superclass and body; it
    changes a class only by removing its first qualifying annotation, the
    other decorators staying in order; and it drops the attribute rather
    than leave an empty list. *)
Theorem rewrite_touches_decorators_only
        (resolve : string -> string -> string) (existsSync : string -> bool)
        (stringify : JS.value -> string) (isAbsolute : string -> bool)
        (ToString : JS.value -> option string) context :
  (forall c log outcome c' log',
      visitNode resolve existsSync stringify isAbsolute ToString context c log
      = (outcome, c', log') ->
      c' = rewritten c \/ (c' = c /\ exists e, outcome = Throw e)) /\
  (forall ast log ast' log',
      traverse (visitClass resolve existsSync stringify isAbsolute ToString
                           context) ast log = (Ok ast', log') ->
      ast' = map rewritten_statement ast) /\
  (forall c,
      id (rewritten c) = id c /\
      superClass (rewritten c) = superClass c /\
      body (rewritten c) = body c /\
      (decorators (rewritten c) = Some [] -> decorators c = Some []) /\
      (rewritten c = c \/
       exists pre d post,
         decorators c = Some (pre ++ d :: post) /\
         no_metadata pre /\ isMetadata d = true /\
         node_arguments (expression d) <> [] /\
         decorators (rewritten c) = match pre ++ post with
                                    | [] => None
                                    | _ :: _ => Some (pre ++ post)
                                    end)).
Proof.
  split; [|split].
  - apply node_rewritten.
  - apply traverse_rewritten.
  - apply rewritten_frame.
Qed.

Lemma rewrite_touches_decorators_only_witness :
  fst (Examples.run
         [ Class (Examples.class "Plain" [Examples.observer]);
           Other "export default Plain;";
           Class Examples.TestComponent ]
         Examples.log0)
  = Ok [ Class (Examples.class "Plain" [Examples.observer]);
         Other "export default Plain;";
         Class (Examples.bare "TestComponent") ] /\
  [ Class (Examples.class "Plain" [Examples.observer]);
    Other "export default Plain;";
    Class (Examples.bare "TestComponent") ]
  = map rewritten_statement
        [ Class (Examples.class "Plain" [Examples.observer]);
          Other "export default Plain;";
          Class Examples.TestComponent ].
Proof.
  split; [reflexivity|].
  apply (proj1 (proj2 (rewrite_touches_decorators_only
                         Examples.resolve Examples.existsSync Examples.show
                         Examples.isAbsolute Examples.ToString
                         Examples.context))
               [ Class (Examples.class "Plain" [Examples.observer]);
                 Other "export default Plain;";
                 Class Examples.TestComponent ]
               Examples.log0 _
               (snd (traverse (visitClass Examples.resolve Examples.existsSync
                                          Examples.show Examples.isAbsolute
                                          Examples.ToString Examples.context)
                              [ Class (Examples.class "Plain"
                                                      [Examples.observer]);
                                Other "export default Plain;";
                                Class Examples.TestComponent ]
                              Examples.log0))).
  reflexivity.
Defined.

(** C3, as stated, does not hold. Rules 1 and 2 test truthiness, not
    "non-empty string": a record named by the number 5 is accepted, and a
    thumbnail that is the number 5 passes rule 2 and makes [path.resolve]
    throw instead of being reported. *)
Lemma validateOptions_is_not_a_string_check :
  (non_empty_string (VNum 5) = false /\
   validateOptions Examples.resolve Examples.existsSync
    Examples.isAbsolute
     (makeOptions "Card"
        (VObj [("name", VNum 5); ("thumbnail", VStr "./sample.png")])
        Examples.context)
     "Card" Examples.log0
   = (Ok true, Examples.log0)) /\
  validateOptions Examples.resolve Examples.existsSync
    Examples.isAbsolute
    (makeOptions "Card" (VObj [("thumbnail", VNum 5)]) Examples.context)
    "Card" Examples.log0
  = (Throw TypeError, Examples.log0).
Proof.
  repeat split.
Qed.

(** C3, amended: on a record whose [env.context] is the loader's directory
    and whose thumbnail is a string or a falsy value, the validator never
    throws and checks three rules in order: name is truthy, thumbnail is
    truthy, the thumbnail resolved against the context exists. It accepts
    when all hold; otherwise it returns false after reporting exactly one
    message, that of the first failing rule, which mentions the field and
    the class. The messages of different rules differ. *)
Theorem validateOptions_first_failure
        (resolve : string -> string -> string) (existsSync : string -> bool)
        (isAbsolute : string -> bool)
        options env context name log :
  lookup "env" options = VObj env ->
  lookup "context" env = VStr context ->
  string_or_falsy (lookup "thumbnail" options) = true ->
  validateOptions resolve existsSync isAbsolute options name log
  = match first_failure resolve existsSync options context with
    | None => (Ok true, log)
    | Some f => (Ok false, report (diagnostic f name) log)
    end
  /\ (forall f,
         mentions (diagnostic f name) (failing_field f) /\
         mentions (diagnostic f name) name)
  /\ (forall f g, diagnostic f name = diagnostic g name -> same_rule f g = true).
Proof.
  intros Henv Hctx Hthumb. split; [|split].
  - now apply validateOptions_rules with (env := env).
  - intros f. split;
      [apply diagnostic_mentions_field | apply diagnostic_mentions_class].
  - intros f g. destruct f, g; simpl; intros H;
      try reflexivity; discriminate H.
Qed.

Lemma validateOptions_first_failure_witness :
  validateOptions Examples.resolve Examples.existsSync
    Examples.isAbsolute
    (makeOptions "Card"
       (VObj [("thumbnail", VStr "./missing.png")]) Examples.context)
    "Card" Examples.log0
  = (Ok false,
     report "Missing thumbnail (/src/./missing.png) for Card, does not exist."
            Examples.log0).
Proof.
  apply (validateOptions_first_failure
           Examples.resolve Examples.existsSync Examples.isAbsolute
           (makeOptions "Card" (VObj [("thumbnail", VStr "./missing.png")])
                        Examples.context)
           [("context", VStr Examples.context)] Examples.context "Card"
           Examples.log0); reflexivity.
Defined.

(** ** The record built from a matched annotation *)

Lemma makeOptions_lookup name args context k :
  NoDup (map fst args) ->
  lookup k (makeOptions name (VObj args) context)
  = if String.eqb "env" k then VObj [("context", VStr context)]
    else if has_own k args then lookup k args
         else lookup k [("name", VStr name)].
Proof.
  intros Hnd. unfold makeOptions, spread. simpl own_entries.
  change (fold_left (fun acc kv => define (fst kv) (snd kv) acc) args
                    [("name", VStr name)])
    with (define_all args [("name", VStr name)]).
  rewrite lookup_define. destruct (String.eqb "env" k); [reflexivity|].
  rewrite lookup_define_all, lookup_app, has_own_rev.
  now rewrite lookup_rev.
Qed.

Lemma filter_nil_no_metadata ds : filter isMetadata ds = [] -> no_metadata ds.
Proof.
  induction ds as [|d ds IH]; simpl; intros H; [constructor|].
  destruct (isMetadata d) eqn:Hd; [discriminate|].
  constructor; [assumption|now apply IH].
Qed.

Lemma at_most_one_split pre d post :
  isMetadata d = true ->
  length (filter isMetadata (pre ++ d :: post)) <= 1 ->
  no_metadata pre /\ no_metadata post.
Proof.
  intros Hd H. rewrite filter_app in H. simpl in H. rewrite Hd in H.
  rewrite length_app in H. simpl in H.
  split; apply filter_nil_no_metadata; apply length_zero_iff_nil; lia.
Qed.

Lemma no_metadata_filter ds : no_metadata ds -> filter isMetadata ds = [].
Proof.
  intros H. apply filter_drop_all. intros x Hx.
  unfold no_metadata in H. rewrite Forall_forall in H. now apply H.
Qed.

Section Idempotence.
Context (resolve : string -> string -> string).
Context (existsSync : string -> bool).
Context (stringify : JS.value -> string).
Context (isAbsolute : string -> bool).
Context (ToString : JS.value -> option string).
Context (context : string).

Let visit := visitClass resolve existsSync stringify isAbsolute ToString context.

(** A class with at most one qualifying annotation, once visited, is a
    class the visitor leaves alone. *)
Lemma visit_idempotent c log c' log' :
  at_most_one_metadata c ->
  visit c log = (Ok c', log') ->
  forall l, visit c' l = (Ok c', l).
Proof.
  intros Hone Hvisit l.
  destruct (visit_completed _ _ _ _ _ _ _ _ _ _ Hvisit)
    as (name & Hid & [(-> & _ & Hg) | (r & args & Hg & ->)]).
  - now apply visit_absent with (name := name).
  - apply visit_absent with (name := name); [exact Hid|].
    destruct (getMetadata_some _ _ _ Hg)
      as (pre & d & post & options & Hds & Hpre & Hd & -> & _ & _).
    unfold at_most_one_metadata in Hone. rewrite Hds in Hone |- *.
    destruct (at_most_one_split pre d post Hd Hone) as [_ Hpost].
    rewrite strip_first. apply getMetadata_none.
    unfold decorators_or_empty. simpl.
    assert (Hrest : no_metadata (pre ++ post)) by now apply Forall_app.
    destruct (pre ++ post); [constructor|exact Hrest].
Qed.

Lemma traverse_idempotent ast log ast' log' :
  single_metadata ast ->
  traverse visit ast log = (Ok ast', log') ->
  forall l, traverse visit ast' l = (Ok ast', l).
Proof.
  revert log ast' log'. induction ast as [|s ast IH];
    intros log ast' log' Hone H l.
  - cbv [traverse ret] in H. injection H as <- _. reflexivity.
  - inversion Hone as [|? ? Hs Hrest]; subst. destruct s as [c|code].
    + rewrite traverse_class in H.
      destruct (visit c log) as [[c'|e] l1] eqn:Hv; [|discriminate].
      destruct (traverse visit ast l1) as [[rest'|e] l2] eqn:Ht;
        [|discriminate].
      injection H as <- _. rewrite traverse_class.
      rewrite (visit_idempotent c log c' l1 Hs Hv l).
      now rewrite (IH l1 rest' l2 Hrest Ht l).
    + rewrite traverse_other in H.
      destruct (traverse visit ast log) as [[rest'|e] l2] eqn:Ht;
        [|discriminate].
      injection H as <- _. rewrite traverse_other.
      now rewrite (IH log rest' l2 Hrest Ht l).
Qed.
End Idempotence.

(** C1, as stated, does not hold when the object literal has a [name] key:
    the spread of the extracted fields overwrites the injected class name.
    The repository's sample class [SampleComponent], annotated with
    [name: 'Sample'], is emitted as [Sample.component.json] with [name]
    field [Sample]. *)
Lemma sample_artifact_takes_name_key :
  id Examples.SampleComponent = Some "SampleComponent" /\
  lookup "name"
    (makeOptions "SampleComponent"
       (VObj [("name", VStr "Sample"); ("thumbnail", VStr "./sample.png")])
       Examples.context)
  = VStr "Sample" /\
  map fst (files (snd (Examples.run_visit Examples.SampleComponent
                                          Examples.log0)))
  = ["Sample.component.json"] /\
  ~ (exists content,
        files (snd (Examples.run_visit Examples.SampleComponent
                                       Examples.log0))
        = [("SampleComponent.component.json", content)]).
Proof.
  repeat split. intros [content H]. vm_compute in H. discriminate H.
Qed.

(** C1, amended: for every class with exactly one qualifying annotation,
    whose object literal is extracted to fields without a [name] key and
    with a thumbnail that resolves to an existing file, the visit emits
    exactly one file, named [<ClassName>.component.json], serialising a
    record whose [name] is the class identifier, whose [env] holds the
    context and whose other fields are the extracted ones, and the class
    is left with no qualifying annotation. *)
Theorem single_annotation_emits_artifact
        (resolve : string -> string -> string) (existsSync : string -> bool)
        (stringify : JS.value -> string) (isAbsolute : string -> bool)
        (ToString : JS.value -> option string)
        context c name pre d post properties more args thumbnail log :
  id c = Some name ->
  name <> "" ->
  decorators c = Some (pre ++ d :: post) ->
  no_metadata pre ->
  no_metadata post ->
  expression d
  = CallExpression (Identifier "Metadata") (ObjectExpression properties :: more) ->
  extractValue (ObjectExpression properties) = Ok (VObj args) ->
  has_own "name" args = false ->
  lookup "thumbnail" args = VStr thumbnail ->
  thumbnail <> "" ->
  existsSync (resolve context thumbnail) = true ->
  exists c' options,
    visitClass resolve existsSync stringify isAbsolute ToString context c log
    = (Ok c',
       emitted (name ++ ".component.json")%string (stringify (VObj options))
               log) /\
    lookup "name" options = VStr name /\
    lookup "env" options = VObj [("context", VStr context)] /\
    (forall k, k <> "name" -> k <> "env" -> lookup k options = lookup k args) /\
    no_metadata (decorators_or_empty c').
Proof.
  intros Hid Hname Hds Hpre Hpost Hexpr Hargs Hnokey Hthumb Hne Hexists.
  assert (Hd : isMetadata d = true).
  { unfold isMetadata. now rewrite Hexpr. }
  pose proof (extractValue_nodup _ _ Hargs) as Hnd.
  set (options := makeOptions name (VObj args) context).
  assert (Hn : lookup "name" options = VStr name).
  { unfold options. rewrite makeOptions_lookup by assumption.
    simpl. now rewrite Hnokey. }
  assert (Ht : lookup "thumbnail" options = VStr thumbnail).
  { unfold options. rewrite makeOptions_lookup by assumption. simpl.
    rewrite lookup_own by (rewrite Hthumb; discriminate). exact Hthumb. }
  assert (He : lookup "env" options = VObj [("context", VStr context)]).
  { unfold options. now rewrite makeOptions_lookup by assumption. }
  assert (Hv : validateOptions resolve existsSync isAbsolute options name log
               = (Ok true, log)).
  { rewrite (validateOptions_rules resolve existsSync isAbsolute options
               [("context", VStr context)] context name log He eq_refl)
      by now rewrite Ht.
    unfold first_failure. rewrite Hn, Ht. simpl.
    destruct (String.eqb name "") eqn:E1;
      [apply String.eqb_eq in E1; contradiction|].
    destruct (String.eqb thumbnail "") eqn:E2;
      [apply String.eqb_eq in E2; contradiction|].
    simpl. now rewrite Hexists. }
  exists (with_decorators c (pre ++ post)), options.
  split; [|split; [exact Hn|split; [exact He|split]]].
  - rewrite (visit_first_matched resolve existsSync stringify isAbsolute
               ToString context c name pre d post
               (ObjectExpression properties) (VObj args) (Ok true)
               log log Hid Hds Hpre Hd);
      [| now rewrite Hexpr | exact Hargs | exact Hv].
    fold options. unfold conclude. rewrite Hn. reflexivity.
  - intros k Hk1 Hk2. unfold options.
    rewrite makeOptions_lookup by assumption.
    destruct (String.eqb "env" k) eqn:E;
      [apply String.eqb_eq in E; congruence|].
    destruct (has_own k args) eqn:Ho; [reflexivity|].
    rewrite (lookup_not_own _ _ Ho).
    change (lookup k [("name", VStr name)])
      with (if String.eqb "name" k then VStr name else VUndefined).
    destruct (String.eqb "name" k) eqn:E';
      [apply String.eqb_eq in E'; congruence|reflexivity].
  - assert (Hrest : no_metadata (pre ++ post)) by now apply Forall_app.
    unfold decorators_or_empty. simpl.
    destruct (pre ++ post); [constructor|exact Hrest].
Qed.

Lemma single_annotation_emits_artifact_witness :
  exists c' options,
    Examples.run_visit Examples.TestComponent Examples.log0
    = (Ok c',
       emitted "TestComponent.component.json" (Examples.show (VObj options))
               Examples.log0) /\
    lookup "name" options = VStr "TestComponent" /\
    lookup "env" options = VObj [("context", VStr "/src")] /\
    (forall k, k <> "name" -> k <> "env" ->
               lookup k options
               = lookup k [("thumbnail", VStr "./sample.png");
                           ("description", VStr "A Test Component");
                           ("props", VObj [("title", VStr "string")])]) /\
    no_metadata (decorators_or_empty c').
Proof.
  apply (single_annotation_emits_artifact
           Examples.resolve Examples.existsSync Examples.show Examples.isAbsolute
           Examples.ToString Examples.context
           Examples.TestComponent "TestComponent" []
           (Examples.Metadata [Examples.test_args]) []
           [ Examples.prop "thumbnail" (StringLiteral "./sample.png");
             Examples.prop "description" (StringLiteral "A Test Component");
             Examples.prop "props"
               (ObjectExpression
                  [ Examples.prop "title" (StringLiteral "string") ]) ]
           []
           [("thumbnail", VStr "./sample.png");
            ("description", VStr "A Test Component");
            ("props", VObj [("title", VStr "string")])]
           "./sample.png" Examples.log0).
  - reflexivity.
  - discriminate.
  - reflexivity.
  - constructor.
  - constructor.
  - reflexivity.
  - reflexivity.
  - reflexivity.
  - reflexivity.
  - discriminate.
  - reflexivity.
Defined.

(** C5, as stated, does not hold for every object literal and every array
    literal: a spread member makes the extractor throw at
    [prop.key.name], and a hole makes it throw at [node.type]. *)
Lemma spread_member_and_hole_throw :
  ~ (forall properties,
        exists obj, extractValue (ObjectExpression properties) = Ok (VObj obj))
  /\ ~ (forall elements,
           exists vs, extractValue (ArrayExpression elements) = Ok (VArr vs)).
Proof.
  split.
  - intros H.
    destruct (H [SpreadElement (Identifier "defaults")]) as [obj Hobj].
    discriminate Hobj.
  - intros H.
    destruct (H [Some (NumericLiteral 1); None; Some (NumericLiteral 2)])
      as [vs Hvs].
    discriminate Hvs.
Qed.

(** C5, amended: for an object literal all of whose members are properties
    keyed by an identifier other than [__proto__], with values that are
    static literals in turn, extraction yields a mapping in which every
    key reads the extracted value of the last property bearing it (keys
    do not repeat); for an array literal without holes whose elements are
    static literals, extraction yields the list of the extracted elements
    in source order. *)
Theorem extract_object_and_array properties elements :
  static_literal (ObjectExpression properties) = true ->
  static_literal (ArrayExpression elements) = true ->
  (exists entries obj,
      Forall2 extracts_to properties entries /\
      extractValue (ObjectExpression properties) = Ok (VObj obj) /\
      NoDup (map fst obj) /\
      forall k, lookup k obj = lookup k (rev entries)) /\
  (exists vs,
      Forall2 element_extracts_to elements vs /\
      extractValue (ArrayExpression elements) = Ok (VArr vs)).
Proof.
  intros Hobj Harr. split.
  - destruct (static_properties properties Hobj) as (entries & Hall & Hkeys).
    exists entries, (define_all entries []).
    split; [exact Hall|]. split; [|split].
    + rewrite extractValue_object.
      now rewrite (reduce_properties properties entries ObjectPrototype []
                   Hall Hkeys).
    + apply define_all_nodup. constructor.
    + intros k. rewrite lookup_define_all. now rewrite app_nil_r.
  - destruct (static_elements elements Harr) as (vs & Hall).
    exists vs. split; [exact Hall|].
    rewrite extractValue_array. now rewrite (map_elements elements vs Hall).
Qed.

Lemma extract_object_and_array_witness :
  (exists entries obj,
      Forall2 extracts_to
        [ Examples.prop "type" (StringLiteral "number");
          Examples.prop "label" (StringLiteral "Title");
          Examples.prop "type" (StringLiteral "string") ] entries /\
      extractValue
        (ObjectExpression
           [ Examples.prop "type" (StringLiteral "number");
             Examples.prop "label" (StringLiteral "Title");
             Examples.prop "type" (StringLiteral "string") ])
      = Ok (VObj obj) /\
      NoDup (map fst obj) /\
      forall k, lookup k obj = lookup k (rev entries)) /\
  (exists vs,
      Forall2 element_extracts_to
        [ Some (StringLiteral "title"); Some (Identifier "x") ] vs /\
      extractValue
        (ArrayExpression [ Some (StringLiteral "title"); Some (Identifier "x") ])
      = Ok (VArr vs)).
Proof.
  apply (extract_object_and_array
           [ Examples.prop "type" (StringLiteral "number");
             Examples.prop "label" (StringLiteral "Title");
             Examples.prop "type" (StringLiteral "string") ]
           [ Some (StringLiteral "title"); Some (Identifier "x") ]);
    reflexivity.
Defined.

(** C8, as stated, does not hold for every source text: a class annotated
    twice loses its first annotation in the first run and its second one,
    with a second emitted file, when the output is transformed again. *)
Lemma second_annotation_processed_on_rerun :
  ~ (forall source output log',
        Examples.run source Examples.log0 = (Ok output, log') ->
        Examples.run output log' = (Ok output, log')).
Proof.
  intros H.
  specialize (H [Class Examples.Twice]
                [Class (set_decorators
                          Examples.Twice
                          (Some [Examples.Metadata [Examples.test_args]]))]
                (emitted "Twice.component.json"
                   (Examples.show
                      (VObj (makeOptions "Twice"
                               (VObj [("thumbnail", VStr "./sample.png");
                                      ("description",
                                       VStr "A Test Component");
                                      ("props",
                                       VObj [("title", VStr "string")])])
                               Examples.context)))
                   Examples.log0)
                eq_refl).
  vm_compute in H. discriminate H.
Qed.

(** C8, amended: for every source in which no class carries more than
    one qualifying annotation, and whose rewritten text parses back to the
    rewritten tree, transforming the text a first run produced returns
    that same text and leaves both channels as they were: no file emitted,
    no error reported. *)
Theorem transform_idempotent
        {Text : Type} (parse : Text -> option File) (generate : File -> Text)
        (resolve : string -> string -> string) (existsSync : string -> bool)
        (stringify : JS.value -> string) (isAbsolute : string -> bool)
        (ToString : JS.value -> option string)
        context source ast ast' log log' :
  parse source = Some ast ->
  single_metadata ast ->
  traverse (visitClass resolve existsSync stringify isAbsolute ToString
                       context) ast log = (Ok ast', log') ->
  parse (generate ast') = Some ast' ->
  transform parse generate resolve existsSync stringify isAbsolute ToString
            context source log
  = (Ok (generate ast'), log') /\
  forall l,
    transform parse generate resolve existsSync stringify isAbsolute ToString
              context (generate ast') l
    = (Ok (generate ast'), l).
Proof.
  intros Hparse Hone Ht Hround. split.
  - unfold transform. rewrite Hparse. unfold bind. now rewrite Ht.
  - intros l. unfold transform. rewrite Hround. unfold bind.
    now rewrite (traverse_idempotent resolve existsSync stringify isAbsolute
                   ToString context ast log ast' log' Hone Ht l).
Qed.

Lemma transform_idempotent_witness :
  Examples.run
    [ Other "import { Metadata } from '../lib/metadata-decorator';";
      Class (Examples.bare "SampleComponent");
      Class (Examples.bare "TestComponent") ]
    (snd (Examples.run Examples.sample_file Examples.log0))
  = (Ok [ Other "import { Metadata } from '../lib/metadata-decorator';";
          Class (Examples.bare "SampleComponent");
          Class (Examples.bare "TestComponent") ],
     snd (Examples.run Examples.sample_file Examples.log0)).
Proof.
  apply (proj2 (transform_idempotent
                  Examples.parse Examples.generate Examples.resolve
                  Examples.existsSync Examples.show Examples.isAbsolute
                  Examples.ToString Examples.context
                  Examples.sample_file Examples.sample_file
                  [ Other "import { Metadata } from '../lib/metadata-decorator';";
                    Class (Examples.bare "SampleComponent");
                    Class (Examples.bare "TestComponent") ]
                  Examples.log0
                  (snd (Examples.run Examples.sample_file Examples.log0))
                  eq_refl
                  ltac:(repeat constructor)
                  eq_refl eq_refl)).
Defined.

(** ** Further facts about strings *)

Lemma length_append (a b : string) :
  String.length (a ++ b)%string = String.length a + String.length b.
Proof.
  induction a as [|ch a IH]; simpl; [reflexivity|]. now rewrite IH.
Qed.

Lemma substring_whole (s : string) : substring 0 (String.length s) s = s.
Proof.
  induction s as [|ch s IH]; simpl; [reflexivity|]. now rewrite IH.
Qed.

Lemma substring_after (a b : string) m :
  substring (String.length a) m (a ++ b)%string = substring 0 m b.
Proof.
  induction a as [|ch a IH]; simpl; [reflexivity|]. exact IH.
Qed.

Lemma endsWith_append (a suffix : string) :
  endsWith (a ++ suffix)%string suffix = true.
Proof.
  unfold endsWith. rewrite length_append.
  replace (String.length a + String.length suffix - String.length suffix)
    with (String.length a) by lia.
  rewrite substring_after, substring_whole, String.eqb_refl.
  rewrite andb_true_r. apply Nat.leb_le. lia.
Qed.

(** ** What the validator and the visitor do to the two channels *)

Section Channels.
Context (resolve : string -> string -> string).
Context (existsSync : string -> bool).
Context (isAbsolute : string -> bool).

Lemma validateOptions_accepted options name log log' :
  validateOptions resolve existsSync isAbsolute options name log
  = (Ok true, log') ->
  log' = log /\
  truthy (lookup "name" options) = true /\
  exists thumbnail filePath,
    lookup "thumbnail" options = VStr thumbnail /\
    thumbnail <> "" /\
    existsSync filePath = true /\
    ((exists context,
         get (lookup "env" options) "context" = Ok (VStr context) /\
         filePath = resolve context thumbnail) \/
     (exists other,
         get (lookup "env" options) "context" = Ok other /\
         (forall s, other <> VStr s) /\
         isAbsolute thumbnail = true /\
         filePath = resolve "" thumbnail)).
Proof.
  intros H.
  destruct (validateOptions_outcome _ _ _ _ _ _ _ _ H)
    as [[_ ->] | [(f & Hf & _) | [Hf _]]]; try discriminate.
  split; [reflexivity|]. revert H. unfold validateOptions.
  destruct (truthy (lookup "name" options)); simpl.
  2:{ cbv [bind emitError ret]. discriminate. }
  destruct (truthy (lookup "thumbnail" options)) eqn:Ht; simpl.
  2:{ cbv [bind emitError ret]. discriminate. }
  unfold bind at 1. unfold lift.
  destruct (get (lookup "env" options) "context") as [context|e]; simpl;
    [|discriminate].
  unfold path_resolve.
  destruct (lookup "thumbnail" options) as [| | | |t| | |]; try discriminate.
  assert (Hne : t <> "") by (intros ->; discriminate Ht).
  destruct context as [| |b|z|c|l|o|p o]; simpl.
  5:{ destruct (existsSync (resolve c t)) eqn:He; simpl.
      - intros _. split; [reflexivity|]. exists t, (resolve c t).
        repeat split; try assumption. left. now exists c.
      - cbv [bind emitError ret]. discriminate. }
  all: destruct (isAbsolute t) eqn:Ha; [|discriminate].
  all: destruct (existsSync (resolve "" t)) eqn:He; simpl;
    [|cbv [bind emitError ret]; discriminate].
  all: intros _; split; [reflexivity|]; exists t, (resolve "" t).
  all: split; [reflexivity|]; split; [assumption|]; split; [assumption|].
  all: right; eexists; split; [reflexivity|]; split; [discriminate|].
  all: split; [assumption|reflexivity].
Qed.

(** X1: the validator accepts a record exactly when its name is truthy,
    its thumbnail is a non-empty string and the resolved thumbnail exists.
    The path is the thumbnail resolved against [env.context] when that is
    a string; when it is anything else, only an absolute thumbnail
    resolves, on its own. It accepts silently, leaving both channels as
    they were. *)
Theorem validateOptions_accepts_iff options name log log' :
  validateOptions resolve existsSync isAbsolute options name log
  = (Ok true, log') <->
  log' = log /\
  truthy (lookup "name" options) = true /\
  exists thumbnail filePath,
    lookup "thumbnail" options = VStr thumbnail /\
    thumbnail <> "" /\
    existsSync filePath = true /\
    ((exists context,
         get (lookup "env" options) "context" = Ok (VStr context) /\
         filePath = resolve context thumbnail) \/
     (exists other,
         get (lookup "env" options) "context" = Ok other /\
         (forall s, other <> VStr s) /\
         isAbsolute thumbnail = true /\
         filePath = resolve "" thumbnail)).
Proof.
  split.
  - apply validateOptions_accepted.
  - intros (-> & Hn & thumbnail & filePath & Ht & Hne & He & Hpath).
    unfold validateOptions. rewrite Hn, Ht. simpl.
    destruct (String.eqb thumbnail "") eqn:E;
      [apply String.eqb_eq in E; contradiction|]. simpl.
    unfold bind at 1. unfold lift.
    destruct Hpath as [(context & Hc & ->) | (other & Hc & Hnot & Ha & ->)];
      rewrite Hc; simpl.
    + now rewrite He.
    + destruct other; try (rewrite Ha, He; reflexivity).
      now contradiction (Hnot s).
Qed.

(** X2: whatever the record, the validator never emits a file and ends in
    one of three ways: it accepts and reports nothing, it rejects after
    reporting exactly one of the three diagnostics, or it throws a
    [TypeError] having reported nothing. *)
Theorem validateOptions_three_outcomes options name log r log' :
  validateOptions resolve existsSync isAbsolute options name log = (r, log') ->
  files log' = files log /\
  ((r = Ok true /\ errors log' = errors log) \/
   (exists f, r = Ok false /\ errors log' = errors log ++ [diagnostic f name]) \/
   (r = Throw TypeError /\ errors log' = errors log)).
Proof.
  intros H.
  destruct (validateOptions_outcome _ _ _ _ _ _ _ _ H)
    as [[-> ->] | [(f & -> & ->) | [-> ->]]].
  - split; [reflexivity|]. now left.
  - split; [reflexivity|]. right. left. now exists f.
  - split; [reflexivity|]. now right; right.
Qed.
End Channels.

Lemma validateOptions_accepts_iff_witness :
  validateOptions Examples.resolve Examples.existsSync Examples.isAbsolute
    [("name", VStr "TestComponent");
     ("thumbnail", VStr "/src/./sample.png");
     ("env", VObj [])]
    "TestComponent" Examples.log0
  = (Ok true, Examples.log0).
Proof.
  apply (proj2 (validateOptions_accepts_iff
                  Examples.resolve Examples.existsSync Examples.isAbsolute
                  [("name", VStr "TestComponent");
                   ("thumbnail", VStr "/src/./sample.png");
                   ("env", VObj [])]
                  "TestComponent" Examples.log0 Examples.log0)).
  split; [reflexivity|]. split; [reflexivity|].
  exists "/src/./sample.png", "/src/./sample.png".
  split; [reflexivity|]. split; [discriminate|]. split; [reflexivity|].
  right. exists VUndefined.
  split; [reflexivity|]. split; [discriminate|]. split; reflexivity.
Defined.

Lemma validateOptions_three_outcomes_witness :
  files (snd (validateOptions Examples.resolve Examples.existsSync
                Examples.isAbsolute
                (makeOptions "Card" (VObj [("thumbnail", VNum 5)])
                             Examples.context)
                "Card" Examples.log0))
  = [].
Proof.
  apply (validateOptions_three_outcomes
           Examples.resolve Examples.existsSync Examples.isAbsolute
           (makeOptions "Card" (VObj [("thumbnail", VNum 5)]) Examples.context)
           "Card" Examples.log0
           (fst (validateOptions Examples.resolve Examples.existsSync
                   Examples.isAbsolute
                   (makeOptions "Card" (VObj [("thumbnail", VNum 5)])
                                Examples.context)
                   "Card" Examples.log0))).
  reflexivity.
Defined.

(** ** The record, whatever the argument *)

Lemma spread_define_all target v :
  spread target v = define_all (own_entries v) target.
Proof. reflexivity. Qed.

Lemma makeOptions_env name args context :
  lookup "env" (makeOptions name args context)
  = VObj [("context", VStr context)].
Proof.
  unfold makeOptions. rewrite lookup_define. reflexivity.
Qed.

Lemma makeOptions_lookup_any name args context k :
  k <> "env" ->
  lookup k (makeOptions name args context)
  = if has_own k (own_entries args) then lookup k (rev (own_entries args))
    else lookup k [("name", VStr name)].
Proof.
  intros Hk. unfold makeOptions. rewrite lookup_define.
  destruct (String.eqb "env" k) eqn:E;
    [apply String.eqb_eq in E; congruence|].
  rewrite spread_define_all, lookup_define_all, lookup_app.
  now rewrite has_own_rev.
Qed.

(** X3: the [env] field of the record is always the loader's context,
    whatever the annotation's argument says, and the [name] field is the
    class identifier unless the argument brings a [name] of its own. *)
Theorem record_env_and_name name args context :
  lookup "env" (makeOptions name args context)
  = VObj [("context", VStr context)] /\
  (has_own "name" (own_entries args) = false ->
   lookup "name" (makeOptions name args context) = VStr name).
Proof.
  split; [apply makeOptions_env|].
  intros H. rewrite makeOptions_lookup_any by discriminate.
  now rewrite H.
Qed.

Lemma record_env_and_name_witness :
  lookup "name"
    (makeOptions "Card"
       (VObj [("env", VStr "/etc"); ("thumbnail", VStr "./a.png")]) "/src")
  = VStr "Card".
Proof.
  apply (record_env_and_name
           "Card" (VObj [("env", VStr "/etc"); ("thumbnail", VStr "./a.png")])
           "/src").
  reflexivity.
Defined.

Section VisitorOutcomes.
Context (resolve : string -> string -> string).
Context (existsSync : string -> bool).
Context (stringify : JS.value -> string).
Context (isAbsolute : string -> bool).
Context (ToString : JS.value -> option string).

(** X4: one visit leaves both channels as they were, or reports exactly
    one diagnostic about the class, or emits exactly one file whose name
    ends in [.component.json]; it never does two of these. *)
Theorem visit_one_effect context c log r log' :
  visitClass resolve existsSync stringify isAbsolute ToString context c log
  = (r, log') ->
  log' = log \/
  (exists f name, id c = Some name /\ log' = report (diagnostic f name) log) \/
  (exists file content,
      log' = emitted file content log /\
      endsWith file ".component.json" = true).
Proof.
  intros H.
  destruct (visit_outcome _ _ _ _ _ _ _ _ _ _ H)
    as [-> | [(f & name & Hid & ->) | (name & args & file & _ & _ & _ & ->)]].
  - now left.
  - right. left. now exists f, name.
  - right. right. eexists. eexists. split; [reflexivity|].
    apply endsWith_append.
Qed.

(** X5: a file is emitted for accepted records only. When a visit emits,
    the record's [name] is truthy and converts to a string, the file is
    named by that string followed by [.component.json], its content is
    the serialised record, the record's thumbnail is a non-empty string
    that exists once resolved against the context, and its [env] is the
    context. *)
Theorem emitted_record_is_valid context c log r log' :
  visitClass resolve existsSync stringify isAbsolute ToString context c log
  = (r, log') ->
  files log' <> files log ->
  exists name args file thumbnail,
    let options := makeOptions name args context in
    id c = Some name /\
    to_string ToString (lookup "name" options) = Ok file /\
    log' = emitted (file ++ ".component.json")%string
                   (stringify (VObj options)) log /\
    truthy (lookup "name" options) = true /\
    lookup "thumbnail" options = VStr thumbnail /\
    thumbnail <> "" /\
    existsSync (resolve context thumbnail) = true /\
    lookup "env" options = VObj [("context", VStr context)].
Proof.
  intros H Hfiles.
  destruct (visit_outcome _ _ _ _ _ _ _ _ _ _ H)
    as [-> | [(f & name & Hid & ->)
             | (name & args & file & Hid & Hv & Hfile & ->)]].
  - contradiction.
  - now contradiction Hfiles.
  - destruct (validateOptions_accepted _ _ _ _ _ _ _ Hv)
      as (_ & Hn & thumbnail & filePath & Ht & Hne & He & Hpath).
    rewrite makeOptions_env in Hpath. simpl in Hpath.
    destruct Hpath as [(ctx & Hc & ->) | (other & Hc & Hnot & _)].
    + injection Hc as <-.
      exists name, args, file, thumbnail. simpl.
      repeat split; try assumption. apply makeOptions_env.
    + injection Hc as <-. now contradiction (Hnot context).
Qed.

(** X6: an annotation whose argument brings neither a [name] nor a
    [thumbnail] (an object literal without these keys, but also an
    identifier, a call, a number, [null]) is removed from the class,
    which keeps its other decorators and parts; nothing is emitted and
    one error is reported: "thumbnail must be specified for
    <ClassName>". *)
Theorem missing_thumbnail_reported
        context c name pre d post options args log :
  id c = Some name ->
  name <> "" ->
  decorators c = Some (pre ++ d :: post) ->
  no_metadata pre ->
  isMetadata d = true ->
  hd_error (node_arguments (expression d)) = Some options ->
  extractValue options = Ok args ->
  has_own "name" (own_entries args) = false ->
  has_own "thumbnail" (own_entries args) = false ->
  visitClass resolve existsSync stringify isAbsolute ToString context c log
  = (Ok {| id := id c;
           decorators := match pre ++ post with
                         | [] => None
                         | _ :: _ => Some (pre ++ post)
                         end;
           superClass := superClass c;
           body := body c |},
     {| files := files log;
        errors := errors log
                  ++ [("thumbnail must be specified for " ++ name)%string] |}).
Proof.
  intros Hid Hname Hds Hpre Hd Hopt Hargs Hn Ht.
  assert (Hv : validateOptions resolve existsSync isAbsolute
                 (makeOptions name args context) name log
               = (Ok false,
                  report ("thumbnail must be specified for " ++ name)%string
                         log)).
  { unfold validateOptions.
    rewrite (makeOptions_lookup_any name args context "name") by discriminate.
    rewrite (makeOptions_lookup_any name args context "thumbnail")
      by discriminate.
    rewrite Hn, Ht. simpl.
    destruct (String.eqb name "") eqn:E;
      [apply String.eqb_eq in E; contradiction|].
    reflexivity. }
  exact (visit_first_matched resolve existsSync stringify isAbsolute ToString
           context c name pre d post options args (Ok false) log _
           Hid Hds Hpre Hd Hopt Hargs Hv).
Qed.

(** X7: an annotation whose object literal has no [name] key and a
    non-empty string thumbnail that does not exist once resolved against
    the context is removed from the class, which keeps its other
    decorators and parts; nothing is emitted and one error is reported,
    with the resolved path: "Missing thumbnail (<path>) for <ClassName>,
    does not exist." *)
Theorem thumbnail_not_found_reported
        context c name pre d post options args thumbnail log :
  id c = Some name ->
  name <> "" ->
  decorators c = Some (pre ++ d :: post) ->
  no_metadata pre ->
  isMetadata d = true ->
  hd_error (node_arguments (expression d)) = Some options ->
  extractValue options = Ok (VObj args) ->
  has_own "name" args = false ->
  lookup "thumbnail" args = VStr thumbnail ->
  thumbnail <> "" ->
  existsSync (resolve context thumbnail) = false ->
  visitClass resolve existsSync stringify isAbsolute ToString context c log
  = (Ok {| id := id c;
           decorators := match pre ++ post with
                         | [] => None
                         | _ :: _ => Some (pre ++ post)
                         end;
           superClass := superClass c;
           body := body c |},
     {| files := files log;
        errors := errors log
                  ++ [("Missing thumbnail (" ++ resolve context thumbnail
                       ++ ") for " ++ name ++ ", does not exist.")%string] |}).
Proof.
  intros Hid Hname Hds Hpre Hd Hopt Hargs Hn Ht Hne He.
  pose proof (extractValue_nodup _ _ Hargs) as Hnd.
  set (record := makeOptions name (VObj args) context).
  assert (Hrn : lookup "name" record = VStr name).
  { unfold record. rewrite makeOptions_lookup by assumption.
    simpl. now rewrite Hn. }
  assert (Hrt : lookup "thumbnail" record = VStr thumbnail).
  { unfold record. rewrite makeOptions_lookup by assumption. simpl.
    rewrite lookup_own by (rewrite Ht; discriminate). exact Ht. }
  assert (Hv : validateOptions resolve existsSync isAbsolute record name log
               = (Ok false,
                  report ("Missing thumbnail (" ++ resolve context thumbnail
                          ++ ") for " ++ name ++ ", does not exist.")%string
                         log)).
  { rewrite (validateOptions_rules resolve existsSync isAbsolute record
               [("context", VStr context)] context name log
               (makeOptions_env _ _ _) eq_refl)
      by now rewrite Hrt.
    unfold first_failure. rewrite Hrn, Hrt. simpl.
    destruct (String.eqb name "") eqn:E1;
      [apply String.eqb_eq in E1; contradiction|].
    destruct (String.eqb thumbnail "") eqn:E2;
      [apply String.eqb_eq in E2; contradiction|].
    simpl. now rewrite He. }
  exact (visit_first_matched resolve existsSync stringify isAbsolute ToString
           context c name pre d post options (VObj args) (Ok false) log _
           Hid Hds Hpre Hd Hopt Hargs Hv).
Qed.

(** X8: a visit that completes never touches a decorator that is not a
    qualifying annotation — they are all kept, in their order — and
    removes at most one qualifying annotation. *)
Theorem other_decorators_kept context c log c' log' :
  visitClass resolve existsSync stringify isAbsolute ToString context c log
  = (Ok c', log') ->
  filter (fun d => negb (isMetadata d)) (decorators_or_empty c')
  = filter (fun d => negb (isMetadata d)) (decorators_or_empty c) /\
  length (filter isMetadata (decorators_or_empty c))
  <= S (length (filter isMetadata (decorators_or_empty c'))).
Proof.
  intros H.
  destruct (visit_completed _ _ _ _ _ _ _ _ _ _ H)
    as (name & Hid & [(-> & _ & _) | (r & args & Hg & ->)]).
  - split; [reflexivity|lia].
  - destruct (getMetadata_some _ _ _ Hg)
      as (pre & d & post & options & Hds & Hpre & Hd & -> & _ & _).
    rewrite Hds, strip_first.
    assert (Hkept : decorators_or_empty
                      (set_decorators c match pre ++ post with
                                        | [] => None
                                        | _ :: _ => Some (pre ++ post)
                                        end)
                    = pre ++ post).
    { unfold decorators_or_empty. simpl. now destruct (pre ++ post). }
    rewrite Hkept, !filter_app. simpl. rewrite Hd. simpl.
    split; [reflexivity|]. rewrite !length_app. simpl. lia.
Qed.
End VisitorOutcomes.

Lemma visit_one_effect_witness :
  snd (Examples.run_visit Examples.TestComponent Examples.log0) = Examples.log0
  \/
  (exists f name,
      id Examples.TestComponent = Some name /\
      snd (Examples.run_visit Examples.TestComponent Examples.log0)
      = report (diagnostic f name) Examples.log0) \/
  (exists file content,
      snd (Examples.run_visit Examples.TestComponent Examples.log0)
      = emitted file content Examples.log0 /\
      endsWith file ".component.json" = true).
Proof.
  apply (visit_one_effect
           Examples.resolve Examples.existsSync Examples.show Examples.isAbsolute
           Examples.ToString Examples.context
           Examples.TestComponent Examples.log0
           (fst (Examples.run_visit Examples.TestComponent Examples.log0))
           (snd (Examples.run_visit Examples.TestComponent Examples.log0))).
  reflexivity.
Defined.

Lemma emitted_record_is_valid_witness :
  exists name args file thumbnail,
    let options := makeOptions name args Examples.context in
    id Examples.TestComponent = Some name /\
    to_string Examples.ToString (lookup "name" options) = Ok file /\
    snd (Examples.run_visit Examples.TestComponent Examples.log0)
    = emitted (file ++ ".component.json")%string
              (Examples.show (VObj options)) Examples.log0 /\
    truthy (lookup "name" options) = true /\
    lookup "thumbnail" options = VStr thumbnail /\
    thumbnail <> "" /\
    Examples.existsSync (Examples.resolve Examples.context thumbnail) = true /\
    lookup "env" options = VObj [("context", VStr Examples.context)].
Proof.
  apply (emitted_record_is_valid
           Examples.resolve Examples.existsSync Examples.show
           Examples.isAbsolute Examples.ToString Examples.context
           Examples.TestComponent Examples.log0
           (fst (Examples.run_visit Examples.TestComponent Examples.log0))
           (snd (Examples.run_visit Examples.TestComponent Examples.log0))).
  - reflexivity.
  - discriminate.
Defined.

Lemma missing_thumbnail_reported_witness :
  Examples.run_visit
    (Examples.class "Card" [Examples.Metadata [Identifier "config"]])
    Examples.log0
  = (Ok (Examples.bare "Card"),
     {| files := []; errors := ["thumbnail must be specified for Card"] |}).
Proof.
  apply (missing_thumbnail_reported
           Examples.resolve Examples.existsSync Examples.show Examples.isAbsolute
           Examples.ToString Examples.context
           (Examples.class "Card" [Examples.Metadata [Identifier "config"]])
           "Card" [] (Examples.Metadata [Identifier "config"]) []
           (Identifier "config") VNull Examples.log0).
  - reflexivity.
  - discriminate.
  - reflexivity.
  - constructor.
  - reflexivity.
  - reflexivity.
  - reflexivity.
  - reflexivity.
  - reflexivity.
Defined.

Lemma thumbnail_not_found_reported_witness :
  Examples.run_visit
    (Examples.class "Card"
       [Examples.Metadata
          [ObjectExpression
             [Examples.prop "thumbnail" (StringLiteral "./missing.png")]]])
    Examples.log0
  = (Ok (Examples.bare "Card"),
     {| files := [];
        errors := ["Missing thumbnail (/src/./missing.png) for Card, does not exist."] |}).
Proof.
  apply (thumbnail_not_found_reported
           Examples.resolve Examples.existsSync Examples.show Examples.isAbsolute
           Examples.ToString Examples.context
           (Examples.class "Card"
              [Examples.Metadata
                 [ObjectExpression
                    [Examples.prop "thumbnail"
                                   (StringLiteral "./missing.png")]]])
           "Card" []
           (Examples.Metadata
              [ObjectExpression
                 [Examples.prop "thumbnail" (StringLiteral "./missing.png")]])
           []
           (ObjectExpression
              [Examples.prop "thumbnail" (StringLiteral "./missing.png")])
           [("thumbnail", VStr "./missing.png")] "./missing.png"
           Examples.log0).
  - reflexivity.
  - discriminate.
  - reflexivity.
  - constructor.
  - reflexivity.
  - reflexivity.
  - reflexivity.
  - reflexivity.
  - reflexivity.
  - discriminate.
  - reflexivity.
Defined.

Lemma other_decorators_kept_witness :
  filter (fun d => negb (isMetadata d))
         (decorators_or_empty
            (set_decorators
               (Examples.class "Card"
                  [Examples.observer; Examples.Metadata [Identifier "config"]])
               (Some [Examples.observer])))
  = [Examples.observer].
Proof.
  apply (other_decorators_kept
           Examples.resolve Examples.existsSync Examples.show Examples.isAbsolute
           Examples.ToString Examples.context
           (Examples.class "Card"
              [Examples.observer; Examples.Metadata [Identifier "config"]])
           Examples.log0
           (set_decorators
              (Examples.class "Card"
                 [Examples.observer; Examples.Metadata [Identifier "config"]])
              (Some [Examples.observer]))
           (report "thumbnail must be specified for Card" Examples.log0)).
  reflexivity.
Defined.

(** ** The locator, characterised *)

(** X9: what the locator returns is the first qualifying decorator of the
    list, referenced by its position, with the extraction of its first
    argument; and it answers "absent" exactly when no decorator qualifies
    or the first qualifying one is called without argument. *)
Theorem locator_returns_first ds :
  (forall r args,
      getMetadata (refs ds) = Ok (Some (r, args)) ->
      nth_error ds (fst r) = Some (snd r) /\
      isMetadata (snd r) = true /\
      (forall i d, i < fst r -> nth_error ds i = Some d -> isMetadata d = false) /\
      exists options,
        hd_error (node_arguments (expression (snd r))) = Some options /\
        extractValue options = Ok args) /\
  (getMetadata (refs ds) = Ok None <->
   no_metadata ds \/
   exists pre d post,
     ds = pre ++ d :: post /\ no_metadata pre /\ isMetadata d = true /\
     node_arguments (expression d) = []).
Proof.
  split.
  - intros r args H.
    destruct (getMetadata_some _ _ _ H)
      as (pre & d & post & options & -> & Hpre & Hd & -> & Hopt & Hargs).
    simpl. repeat split.
    + rewrite nth_error_app2 by lia. now rewrite Nat.sub_diag.
    + exact Hd.
    + intros i d' Hi Hnth. rewrite nth_error_app1 in Hnth by assumption.
      apply nth_error_In in Hnth. unfold no_metadata in Hpre.
      rewrite Forall_forall in Hpre. now apply Hpre.
    + now exists options.
  - split.
    + intros H.
      destruct (split_first_metadata ds)
        as [Hn | (pre & d & post & -> & Hpre & Hd)]; [now left|].
      right. exists pre, d, post. repeat split; try assumption.
      rewrite getMetadata_first in H by assumption.
      destruct (node_arguments (expression d)) as [|options rest];
        [reflexivity|].
      simpl in H. destruct (extractValue options); discriminate.
    + intros [Hn | (pre & d & post & -> & Hpre & Hd & Hargs)].
      * now apply getMetadata_none.
      * rewrite getMetadata_first by assumption. now rewrite Hargs.
Qed.

Lemma locator_returns_first_witness :
  nth_error [Examples.observer; Examples.Metadata [Identifier "config"]] 1
  = Some (Examples.Metadata [Identifier "config"]).
Proof.
  apply (proj1 (locator_returns_first
                  [Examples.observer; Examples.Metadata [Identifier "config"]])
               (1, Examples.Metadata [Identifier "config"]) VNull).
  reflexivity.
Defined.

(** ** The keys of an extracted object *)

Lemma define_length k v l : length (define k v l) <= S (length l).
Proof.
  induction l as [|[k0 v0] l IH]; simpl; [lia|].
  destruct (String.eqb k0 k); simpl; lia.
Qed.

Lemma assign_keys obj k v k' :
  In k' (map fst (snd (assign obj k v))) ->
  k' = k \/ In k' (map fst (snd obj)).
Proof.
  destruct obj as [proto own]. unfold assign.
  destruct (negb (String.eqb k "__proto__") || has_own k own); simpl.
  { intros H. now apply define_keys in H. }
  destruct (find_on_chain proto); simpl;
    try (intros H; now apply define_keys in H).
  destruct (is_object v); simpl; [now right|].
  destruct v; simpl; now right.
Qed.

Lemma assign_length obj k v :
  length (snd (assign obj k v)) <= S (length (snd obj)).
Proof.
  destruct obj as [proto own]. unfold assign.
  destruct (negb (String.eqb k "__proto__") || has_own k own); simpl;
    [apply define_length|].
  destruct (find_on_chain proto); simpl; try apply define_length.
  destruct (is_object v); simpl; [lia|].
  destruct v; simpl; lia.
Qed.

Lemma reduce_properties_keys properties acc obj :
  reduce_result extract_property properties acc = Ok obj ->
  (forall k,
      In k (map fst (snd obj)) ->
      In k (map fst (snd acc)) \/
      exists key computed v,
        In (ObjectProperty key computed v) properties /\
        k = property_key (node_name key)) /\
  length (snd obj) <= length (snd acc) + length properties.
Proof.
  revert acc. induction properties as [|p ps IH]; intros acc H; simpl in H.
  - injection H as <-. split; [now left | lia].
  - destruct (extract_property acc p) as [acc'|e] eqn:Hp; simpl in H;
      [|discriminate].
    destruct (IH acc' H) as [Hkeys Hlen].
    destruct p; simpl in Hp; try discriminate.
    destruct (extractValue p2) as [v|e]; simpl in Hp; [|discriminate].
    injection Hp as <-. split.
    + intros k Hk.
      destruct (Hkeys k Hk) as [Hin | (key & c & v' & Hin & ->)].
      * apply assign_keys in Hin. destruct Hin as [-> | Hin]; [|now left].
        right. exists p1, computed, p2. split; [now left|reflexivity].
      * right. exists key, c, v'. split; [now right|reflexivity].
    + pose proof (assign_length acc (property_key (node_name p1)) v).
      simpl. lia.
Qed.

(** Once replaced, a prototype is never [Object.prototype] again. *)
Lemma assign_replaced p own k v :
  exists p' own', assign (Replaced p, own) k v = (Replaced p', own').
Proof.
  unfold assign.
  destruct (negb (String.eqb k "__proto__") || has_own k own);
    [eexists; eexists; reflexivity|].
  destruct (find_on_chain (Replaced p));
    try (eexists; eexists; reflexivity).
  destruct (is_object v); [eexists; eexists; reflexivity|].
  destruct v; eexists; eexists; reflexivity.
Qed.

Lemma reduce_properties_replaced properties p own proto' own' :
  reduce_result extract_property properties (Replaced p, own)
  = Ok (proto', own') ->
  proto' <> ObjectPrototype.
Proof.
  revert p own. induction properties as [|q qs IH]; intros p own H;
    cbn [reduce_result] in H.
  - injection H as <- _. discriminate.
  - destruct q; cbn [extract_property rbind] in H; try discriminate.
    destruct (extractValue q2) as [v|e]; cbn [rbind] in H; [|discriminate].
    destruct (assign_replaced p own (property_key (node_name q1)) v)
      as (p' & o' & Heq).
    rewrite Heq in H. exact (IH _ _ H).
Qed.

(** While the prototype is [Object.prototype], an assignment to
    [__proto__] meets the accessor and creates no own property. *)
Lemma reduce_properties_untouched properties own own' :
  ~ In "__proto__" (map fst own) ->
  reduce_result extract_property properties (ObjectPrototype, own)
  = Ok (ObjectPrototype, own') ->
  ~ In "__proto__" (map fst own').
Proof.
  revert own. induction properties as [|q qs IH]; intros own Hown H;
    cbn [reduce_result] in H.
  - injection H as <-. exact Hown.
  - destruct q; cbn [extract_property rbind] in H; try discriminate.
    destruct (extractValue q2) as [v|e]; cbn [rbind] in H; [|discriminate].
    assert (Hno : has_own "__proto__" own = false).
    { destruct (has_own "__proto__" own) eqn:E; [|reflexivity].
      apply has_own_in in E. contradiction. }
    unfold assign in H.
    destruct (String.eqb (property_key (node_name q1)) "__proto__") eqn:E.
    + apply String.eqb_eq in E. rewrite E, Hno in H.
      cbn [negb orb find_on_chain] in H.
      destruct (is_object v).
      { now apply reduce_properties_replaced in H. }
      destruct v;
        try (exact (IH _ Hown H));
        now apply reduce_properties_replaced in H.
    + cbn [negb orb] in H. refine (IH _ _ H).
      intros Hin. apply define_keys in Hin. destruct Hin as [Heq | Hin].
      * apply String.eqb_neq in E. now symmetry in Heq.
      * contradiction.
Qed.

(** Two assignments to [__proto__], as in [{ __proto__: a, [b]: 'y' }]
    where the computed key is the identifier [__proto__]. An identifier is
    extracted as [null], which replaces the prototype: the second
    assignment then finds no accessor and creates an own property, and so
    it does when the new prototype's chain ends in [null]. After a plain
    object replaced the prototype, the accessor is still there and
    ignores a string; so it does with [undefined], the value of a [null]
    literal. *)
Example proto_assigned_twice :
  let second := ObjectProperty (Identifier "__proto__") true
                               (StringLiteral "y") in
  extractValue
    (ObjectExpression [Examples.prop "__proto__" (Identifier "a"); second])
  = Ok (VObjWith None [("__proto__", VStr "y")])
  /\
  extractValue
    (ObjectExpression
       [ Examples.prop "__proto__"
           (ObjectExpression [Examples.prop "__proto__" (Identifier "a")]);
         second ])
  = Ok (VObjWith (Some (VObjWith None [])) [("__proto__", VStr "y")])
  /\
  extractValue
    (ObjectExpression [Examples.prop "__proto__" (ObjectExpression []); second])
  = Ok (VObjWith (Some (VObj [])) [])
  /\
  extractValue
    (ObjectExpression [Examples.prop "__proto__" NullLiteral; second])
  = Ok (VObj []).
Proof. repeat split. Qed.

(** X10: the object extracted from an object literal has own keys that do
    not repeat, at most as many as the literal has members, and every one
    of them is the key name of one of the literal's properties;
    [__proto__] is among them only on an object whose prototype an
    earlier assignment to [__proto__] replaced. *)
Theorem extracted_object_keys properties v :
  extractValue (ObjectExpression properties) = Ok v ->
  NoDup (map fst (own_entries v)) /\
  length (own_entries v) <= length properties /\
  (forall k,
      In k (map fst (own_entries v)) ->
      exists key computed x,
        In (ObjectProperty key computed x) properties /\
        k = property_key (node_name key)) /\
  (forall own, v = VObj own -> ~ In "__proto__" (map fst own)).
Proof.
  intros H. rewrite extractValue_object in H.
  destruct (reduce_result extract_property properties
                          (ObjectPrototype, ([] : object)))
    as [[proto own]|e] eqn:Hr; cbn [rbind] in H; [|discriminate].
  injection H as <-.
  destruct (reduce_properties_keys _ _ _ Hr) as [Hkeys Hlen].
  pose proof (reduce_properties_nodup
                properties (ObjectPrototype, ([] : object)) (proto, own)
                (NoDup_nil _) Hr) as Hnd.
  simpl in Hkeys, Hlen, Hnd.
  assert (Hfirst :
            NoDup (map fst own) /\
            length own <= length properties /\
            forall k,
              In k (map fst own) ->
              exists key computed x,
                In (ObjectProperty key computed x) properties /\
                k = property_key (node_name key)).
  { split; [exact Hnd|]. split; [exact Hlen|].
    intros k Hin. destruct (Hkeys _ Hin) as [[] | Hex]. exact Hex. }
  destruct Hfirst as (H1 & H2 & H3).
  destruct proto as [|p]; simpl.
  - repeat split; try assumption.
    intros own0 Heq. injection Heq as <-.
    apply (reduce_properties_untouched properties [] own);
      [intros [] | exact Hr].
  - repeat split; try assumption. intros own0 Heq. discriminate Heq.
Qed.

Lemma extracted_object_keys_witness :
  NoDup ["type"; "label"] /\
  2 <= 4 /\
  (forall k,
      In k ["type"; "label"] ->
      exists key computed x,
        In (ObjectProperty key computed x)
           [ Examples.prop "type" (StringLiteral "number");
             Examples.prop "__proto__" (StringLiteral "x");
             Examples.prop "label" (StringLiteral "Title");
             Examples.prop "type" (StringLiteral "string") ] /\
        k = property_key (node_name key)) /\
  (forall own,
      VObj [("type", VStr "string"); ("label", VStr "Title")] = VObj own ->
      ~ In "__proto__" (map fst own)).
Proof.
  apply (extracted_object_keys
           [ Examples.prop "type" (StringLiteral "number");
             Examples.prop "__proto__" (StringLiteral "x");
             Examples.prop "label" (StringLiteral "Title");
             Examples.prop "type" (StringLiteral "string") ]
           (VObj [("type", VStr "string"); ("label", VStr "Title")])).
  reflexivity.
Defined.

(** ** Whole files *)

(** The extractor throws nothing but a [TypeError]. *)
Lemma extractValue_throws_TypeError :
  forall n e, extractValue n = Throw e -> e = TypeError.
Proof.
  fix IH 1. intros n. destruct n; try (intros e; simpl; discriminate).
  - assert (H : forall acc e,
               reduce_result extract_property properties acc = Throw e ->
               e = TypeError).
    { revert properties. fix go 1. intros [|p ps] acc e; simpl;
        [discriminate|].
      destruct p; simpl; try (intros H; injection H as <-; reflexivity).
      pose proof (IH p2) as IHv.
      destruct (extractValue p2) as [v|e']; simpl.
      - apply go.
      - intros H. injection H as <-. apply IHv; reflexivity. }
    intros e. rewrite extractValue_object.
    destruct (reduce_result extract_property properties
                (ObjectPrototype, ([] : object))) eqn:Hr; simpl;
      [discriminate|].
    intros Heq. injection Heq as <-. exact (H _ _ Hr).
  - assert (H : forall e,
               map_result extract_element elements = Throw e ->
               e = TypeError).
    { revert elements. fix go 1. intros [|elt es] e; simpl; [discriminate|].
      destruct elt as [x|]; simpl;
        [|intros H; injection H as <-; reflexivity].
      pose proof (IH x) as IHx. pose proof (go es) as IHes.
      destruct (extractValue x) as [v|e']; simpl.
      - destruct (map_result extract_element es) as [vs|e']; simpl;
          [discriminate|].
        intros H. injection H as <-. apply IHes; reflexivity.
      - intros H. injection H as <-. apply IHx; reflexivity. }
    intros e. rewrite extractValue_array.
    destruct (map_result extract_element elements); simpl; [discriminate|].
    intros Heq. injection Heq as <-. apply H; reflexivity.
Qed.

Lemma getMetadata_throws_TypeError ds e :
  getMetadata ds = Throw e -> e = TypeError.
Proof.
  unfold getMetadata.
  destruct (hd_error (filter (fun d => isMetadata (snd d)) ds)) as [d|];
    [|discriminate].
  destruct (hd_error (node_arguments (expression (snd d)))) as [options|];
    [|discriminate].
  destruct (extractValue options) as [v|e'] eqn:Hv; simpl; [discriminate|].
  intros H. injection H as <-. exact (extractValue_throws_TypeError _ _ Hv).
Qed.

Section WholeFiles.
Context {Text : Type}.
Context (parse : Text -> option File) (generate : File -> Text).
Context (resolve : string -> string -> string).
Context (existsSync : string -> bool).
Context (stringify : JS.value -> string).
Context (isAbsolute : string -> bool).
Context (ToString : JS.value -> option string).
Context (context : string).

Let visit := visitClass resolve existsSync stringify isAbsolute ToString context.

Lemma to_string_throws_TypeError v e :
  to_string ToString v = Throw e -> e = TypeError.
Proof.
  unfold to_string. destruct v; try discriminate;
    destruct (ToString _); try discriminate;
    intros H; now injection H as <-.
Qed.

Lemma visit_throws_TypeError c log e log' :
  visit c log = (Throw e, log') -> e = TypeError.
Proof.
  unfold visit. rewrite visit_of_node.
  destruct (visitNode resolve existsSync stringify isAbsolute ToString
                      context c log) as [[outcome c1] l1] eqn:Hn.
  destruct outcome as [u|e1]; [discriminate|].
  intros H. injection H as <- _.
  destruct (node_cases _ _ _ _ _ _ _ _ _ _ _ Hn)
    as [(_ & _ & [Hid | (r & Hg & [[_ Ho] | (e & -> & He)])])
       | (name & r & args & verdict & l & _ & _ & Hv & _ & Hc)].
  - rewrite (node_anonymous resolve existsSync stringify isAbsolute ToString
               context c log Hid) in Hn.
    now injection Hn as <- _ _.
  - discriminate Ho.
  - injection He as <-. exact (getMetadata_throws_TypeError _ _ Hg).
  - destruct (validateOptions_outcome _ _ _ _ _ _ _ _ Hv)
      as [[-> ->] | [(f & -> & ->) | [-> ->]]]; unfold conclude in Hc.
    + destruct (to_string ToString
                          (lookup "name" (makeOptions name args context)))
        as [file|e] eqn:Hs; [discriminate Hc|].
      injection Hc as <- _. exact (to_string_throws_TypeError _ _ Hs).
    + discriminate Hc.
    + now injection Hc as <- _.
Qed.

Lemma traverse_throws_TypeError ast log e log' :
  traverse visit ast log = (Throw e, log') -> e = TypeError.
Proof.
  revert log e log'. induction ast as [|s ast IH]; intros log e log'.
  - cbv [traverse ret]. discriminate.
  - destruct s as [c|code].
    + rewrite traverse_class.
      destruct (visit c log) as [[c'|e'] l1] eqn:Hv.
      * destruct (traverse visit ast l1) as [[rest'|e'] l2] eqn:Ht;
          [discriminate|].
        intros H. injection H as <- _. exact (IH _ _ _ Ht).
      * intros H. injection H as <- _.
        exact (visit_throws_TypeError _ _ _ _ Hv).
    + rewrite traverse_other.
      destruct (traverse visit ast log) as [[rest'|e'] l2] eqn:Ht;
        [discriminate|].
      intros H. injection H as <- _. exact (IH _ _ _ Ht).
Qed.

Lemma traverse_unannotated ast log :
  Forall unannotated ast -> traverse visit ast log = (Ok ast, log).
Proof.
  induction 1 as [|s ast Hs _ IH]; [reflexivity|].
  destruct s as [c|code].
  - destruct Hs as [Hid Hnone]. rewrite traverse_class.
    destruct (id c) as [name|] eqn:E; [|contradiction].
    unfold visit at 1.
    rewrite (visit_absent resolve existsSync stringify isAbsolute ToString
               context c name log E (getMetadata_none _ Hnone)).
    fold visit. now rewrite IH.
  - rewrite traverse_other. now rewrite IH.
Qed.

Lemma traverse_channels ast log r log' :
  traverse visit ast log = (r, log') ->
  exists fs es,
    files log' = files log ++ fs /\
    errors log' = errors log ++ es /\
    length fs + length es <= count_classes ast /\
    Forall (fun f => endsWith (fst f) ".component.json" = true) fs.
Proof.
  revert log r log'. induction ast as [|s ast IH]; intros log r log'.
  - cbv [traverse ret]. intros H. injection H as _ <-.
    exists [], []. rewrite !app_nil_r.
    split; [reflexivity|]. split; [reflexivity|].
    split; [simpl; lia | constructor].
  - destruct s as [c|code].
    + rewrite traverse_class.
      destruct (visit c log) as [v l1] eqn:Hv.
      assert (H1 : exists fs es,
                 files l1 = files log ++ fs /\
                 errors l1 = errors log ++ es /\
                 length fs + length es <= 1 /\
                 Forall (fun f => endsWith (fst f) ".component.json" = true)
                        fs).
      { destruct (visit_outcome _ _ _ _ _ _ _ _ _ _ Hv)
          as [-> | [(f & name & _ & ->) | (name & args & file & _ & _ & _ & ->)]].
        - exists [], []. rewrite !app_nil_r.
          split; [reflexivity|]. split; [reflexivity|].
          split; [simpl; lia | constructor].
        - exists [], [diagnostic f name]. rewrite app_nil_r.
          split; [reflexivity|]. split; [reflexivity|].
          split; [simpl; lia | constructor].
        - eexists [_], []. rewrite app_nil_r.
          split; [reflexivity|]. split; [reflexivity|].
          split; [simpl; lia|]. constructor; [|constructor].
          apply endsWith_append. }
      destruct H1 as (fs1 & es1 & Hf1 & He1 & Hlen1 & Hall1).
      destruct v as [c'|e].
      * destruct (traverse visit ast l1) as [v2 l2] eqn:Ht.
        destruct (IH _ _ _ Ht) as (fs2 & es2 & Hf2 & He2 & Hlen2 & Hall2).
        intros H.
        assert (Hl : log' = l2) by (destruct v2; now injection H as _ <-).
        subst log'. exists (fs1 ++ fs2), (es1 ++ es2).
        rewrite Hf2, Hf1, He2, He1, <- !app_assoc, !length_app.
        split; [reflexivity|]. split; [reflexivity|].
        split; [simpl; lia|]. now apply Forall_app.
      * intros H. injection H as _ <-. exists fs1, es1.
        split; [assumption|]. split; [assumption|].
        split; [simpl; lia | assumption].
    + rewrite traverse_other.
      destruct (traverse visit ast log) as [v2 l2] eqn:Ht.
      destruct (IH _ _ _ Ht) as (fs2 & es2 & Hf2 & He2 & Hlen2 & Hall2).
      intros H.
      assert (Hl : log' = l2) by (destruct v2; now injection H as _ <-).
      subst log'. exists fs2, es2.
      split; [assumption|]. split; [assumption|].
      split; [simpl; lia | assumption].
Qed.

Let run := transform parse generate resolve existsSync stringify isAbsolute ToString context.

(** X11: a file in which every class has an identifier and no qualifying
    annotation goes through untouched: the transform returns the text of
    the tree as parsed, emits no file and reports no error. *)
Theorem unannotated_file_unchanged source ast log :
  parse source = Some ast ->
  Forall unannotated ast ->
  run source log = (Ok (generate ast), log).
Proof.
  intros Hparse Hall. unfold run, transform. rewrite Hparse.
  unfold bind. fold visit. now rewrite traverse_unannotated.
Qed.

(** X12: whether it returns or throws, the transform only appends to the
    two channels; what was emitted or reported before stays. Together it
    adds at most one file or error per class declaration of the file, and
    every file it adds has a name ending in [.component.json]. *)
Theorem transform_appends_to_channels source ast log r log' :
  parse source = Some ast ->
  run source log = (r, log') ->
  exists fs es,
    files log' = files log ++ fs /\
    errors log' = errors log ++ es /\
    length fs + length es <= count_classes ast /\
    Forall (fun f => endsWith (fst f) ".component.json" = true) fs.
Proof.
  intros Hparse. unfold run, transform. rewrite Hparse.
  unfold bind. fold visit.
  destruct (traverse visit ast log) as [v l] eqn:Ht.
  intros H.
  assert (Hl : log' = l).
  { destruct v; [cbv [ret] in H|]; now injection H as _ <-. }
  subst log'. exact (traverse_channels _ _ _ _ Ht).
Qed.

(** X13: the transform throws a [SyntaxError] exactly when the source does
    not parse, and then before anything is emitted or reported; any other
    exception it lets through is a [TypeError]. *)
Theorem syntax_error_iff_unparsed source log :
  (forall log',
      run source log = (Throw SyntaxError, log') <->
      parse source = None /\ log' = log) /\
  (forall e log',
      run source log = (Throw e, log') -> e = SyntaxError \/ e = TypeError).
Proof.
  unfold run, transform. split.
  - intros log'. destruct (parse source) as [ast|].
    + unfold bind. fold visit.
      destruct (traverse visit ast log) as [[ast'|e] l] eqn:Ht.
      * cbv [ret]. split; [discriminate | intros [H _]; discriminate H].
      * pose proof (traverse_throws_TypeError _ _ _ _ Ht) as ->.
        split; [discriminate | intros [H _]; discriminate H].
    + cbv [throw]. split.
      * intros H. injection H as <-. now split.
      * intros [_ ->]. reflexivity.
  - intros e log'. destruct (parse source) as [ast|].
    + unfold bind. fold visit.
      destruct (traverse visit ast log) as [[ast'|e'] l] eqn:Ht.
      * cbv [ret]. discriminate.
      * intros H. injection H as <- _. right.
        exact (traverse_throws_TypeError _ _ _ _ Ht).
    + cbv [throw]. intros H. injection H as <- _. now left.
Qed.
End WholeFiles.

Lemma unannotated_file_unchanged_witness :
  Examples.run
    [ Other "import React from 'react';";
      Class (Examples.class "Plain" [Examples.observer]) ]
    Examples.log0
  = (Ok [ Other "import React from 'react';";
          Class (Examples.class "Plain" [Examples.observer]) ],
     Examples.log0).
Proof.
  apply (unannotated_file_unchanged
           Examples.parse Examples.generate Examples.resolve
           Examples.existsSync Examples.show Examples.isAbsolute
           Examples.ToString Examples.context
           [ Other "import React from 'react';";
             Class (Examples.class "Plain" [Examples.observer]) ]
           [ Other "import React from 'react';";
             Class (Examples.class "Plain" [Examples.observer]) ]
           Examples.log0).
  - reflexivity.
  - repeat constructor. discriminate.
Defined.

Lemma transform_appends_to_channels_witness :
  exists fs es,
    files (snd (Examples.run [Class Examples.Card; Class Examples.anonymous]
                             Examples.log0))
    = files Examples.log0 ++ fs /\
    errors (snd (Examples.run [Class Examples.Card; Class Examples.anonymous]
                              Examples.log0))
    = errors Examples.log0 ++ es /\
    length fs + length es <= 2 /\
    Forall (fun f => endsWith (fst f) ".component.json" = true) fs.
Proof.
  apply (transform_appends_to_channels
           Examples.parse Examples.generate Examples.resolve
           Examples.existsSync Examples.show Examples.isAbsolute
           Examples.ToString Examples.context
           [Class Examples.Card; Class Examples.anonymous]
           [Class Examples.Card; Class Examples.anonymous]
           Examples.log0
           (fst (Examples.run [Class Examples.Card; Class Examples.anonymous]
                              Examples.log0))
           (snd (Examples.run [Class Examples.Card; Class Examples.anonymous]
                              Examples.log0))).
  - reflexivity.
  - reflexivity.
Defined.

Lemma syntax_error_iff_unparsed_witness :
  transform (fun _ : string => None) (fun _ : File => "")
            Examples.resolve Examples.existsSync Examples.show Examples.isAbsolute
           Examples.ToString
            Examples.context "class {" Examples.log0
  = (Throw SyntaxError, Examples.log0).
Proof.
  apply (proj1 (syntax_error_iff_unparsed
                  (fun _ : string => None) (fun _ : File => "")
                  Examples.resolve Examples.existsSync Examples.show Examples.isAbsolute
           Examples.ToString
                  Examples.context "class {" Examples.log0)
               Examples.log0).
  split; reflexivity.
Defined.

(** ** The first version of the loader *)

Lemma early_extractValue_object properties :
  Early.extractValue (ObjectExpression properties)
  = let? obj := reduce_result Early.extract_property properties
                               (ObjectPrototype, ([] : object)) in
    Ok (make_object obj).
Proof. reflexivity. Qed.

(** X14: the first version's extractor has no array case: it reads an
    array literal as [null], holes or not, and on every node without array
    literal inside it returns what the final extractor returns. *)
Theorem early_extractor_agrees :
  (forall elements, Early.extractValue (ArrayExpression elements) = Ok VNull) /\
  (forall n, array_free n = true -> Early.extractValue n = extractValue n).
Proof.
  split; [reflexivity|].
  fix IH 1. intros n. destruct n; try (intros _; reflexivity).
  - intros Hfree. rewrite early_extractValue_object, extractValue_object.
    assert (H : forall acc,
               reduce_result Early.extract_property properties acc
               = reduce_result extract_property properties acc).
    { simpl in Hfree. revert properties Hfree. fix go 1.
      intros [|p ps] Hfree acc; [reflexivity|].
      simpl in Hfree. apply andb_true_iff in Hfree.
      destruct Hfree as [Hp Hps].
      destruct p; try (simpl; reflexivity).
      pose proof (IH p2 Hp) as Hv. simpl. rewrite Hv.
      destruct (extractValue p2) as [v|e]; simpl; [|reflexivity].
      apply go. exact Hps. }
    rewrite H. reflexivity.
  - intros Hfree. discriminate Hfree.
Qed.

Lemma early_extractor_agrees_witness :
  Early.extractValue Examples.test_args = extractValue Examples.test_args.
Proof.
  apply (proj2 early_extractor_agrees Examples.test_args). reflexivity.
Defined.

(** Where the final extractor returns, the first one returns too. *)
Lemma early_extractValue_returns :
  forall n v, extractValue n = Ok v -> exists v', Early.extractValue n = Ok v'.
Proof.
  fix IH 1. intros n. destruct n;
    try (intros v _; eexists; reflexivity).
  assert (H : forall acc acc' obj,
             reduce_result extract_property properties acc = Ok obj ->
             exists obj',
               reduce_result Early.extract_property properties acc'
               = Ok obj').
  { revert properties. fix go 1. intros [|p ps] acc acc' obj.
    - intros _. eexists; reflexivity.
    - simpl. destruct p; try (simpl; discriminate).
      pose proof (IH p2) as IHv. simpl.
      destruct (extractValue p2) as [v|e]; simpl; [|discriminate].
      destruct (IHv v eq_refl) as [v' Hv']. rewrite Hv'. simpl.
      apply go. }
  intros v. rewrite extractValue_object, early_extractValue_object.
  destruct (reduce_result extract_property properties
              (ObjectPrototype, ([] : object))) as [obj|e] eqn:Hr;
    cbn [rbind]; [|discriminate].
  intros _.
  destruct (H _ (ObjectPrototype, ([] : object)) obj Hr) as [obj' Hobj'].
  rewrite Hobj'. cbn [rbind]. eexists; reflexivity.
Qed.

Lemma early_getMetadata_returns ds r :
  getMetadata ds = Ok r -> exists r', Early.getMetadata ds = Ok r'.
Proof.
  unfold getMetadata, Early.getMetadata.
  destruct (hd_error (filter (fun d => isMetadata (snd d)) ds)) as [d|];
    [|intros _; eexists; reflexivity].
  destruct (hd_error (node_arguments (expression (snd d)))) as [options|];
    [|intros _; eexists; reflexivity].
  destruct (extractValue options) as [v|e] eqn:Hv; simpl; [|discriminate].
  intros _. destruct (early_extractValue_returns _ _ Hv) as [v' ->].
  eexists; reflexivity.
Qed.

Lemma early_visit_returns_iff c :
  (exists c', Early.visitClass c = Ok c') <-> Early.locates c.
Proof.
  unfold Early.visitClass, Early.locates.
  destruct (Early.getMetadata (refs (decorators_or_empty c)))
    as [[[d args]|]|e]; simpl.
  - split; intros _; eexists; reflexivity.
  - split; intros _; eexists; reflexivity.
  - split; intros [x Hx]; discriminate Hx.
Qed.

Lemma early_traverse_returns_iff ast :
  (exists ast', Early.traverse ast = Ok ast') <-> Early.locates_all ast.
Proof.
  unfold Early.locates_all. induction ast as [|s ast IH].
  - split; [constructor | intros _; eexists; reflexivity].
  - destruct s as [c|code]; simpl.
    + split.
      * intros [ast' H].
        destruct (Early.visitClass c) as [c'|e] eqn:Hc; simpl in H;
          [|discriminate].
        destruct (Early.traverse ast) as [rest'|e]; simpl in H;
          [|discriminate].
        constructor.
        -- apply early_visit_returns_iff. now exists c'.
        -- apply IH. now exists rest'.
      * intros H. inversion H as [|? ? Hc Hrest]; subst.
        apply early_visit_returns_iff in Hc. destruct Hc as [c' ->].
        apply IH in Hrest. destruct Hrest as [rest' ->].
        simpl. eexists; reflexivity.
    + split.
      * intros [ast' H].
        destruct (Early.traverse ast) as [rest'|e]; simpl in H;
          [|discriminate].
        constructor; [exact I|]. apply IH. now exists rest'.
      * intros H. inversion H as [|? ? _ Hrest]; subst.
        apply IH in Hrest. destruct Hrest as [rest' ->].
        simpl. eexists; reflexivity.
Qed.

Section EarlyTransform.
Context {Text : Type}.
Context (parse : Text -> option File) (generate : File -> Text).
Context (resolve : string -> string -> string).
Context (existsSync : string -> bool).
Context (stringify : JS.value -> string).
Context (isAbsolute : string -> bool).
Context (ToString : JS.value -> option string).
Context (context : string).

(** X15: the first version returns nothing but the text it was given, and
    it returns exactly when the source parses and the locator completes on
    every class; a class without identifier does not make it throw. *)
Theorem early_transform_returns_source source :
  (forall output, Early.transform parse source = Ok output -> output = source)
  /\ (forall ast,
         parse source = Some ast ->
         (Early.transform parse source = Ok source <-> Early.locates_all ast)).
Proof.
  unfold Early.transform. split.
  - intros output. destruct (parse source) as [ast|]; [|discriminate].
    destruct (Early.traverse ast); simpl; [|discriminate].
    intros H. now injection H as <-.
  - intros ast ->. rewrite <- early_traverse_returns_iff. split.
    + destruct (Early.traverse ast) as [ast'|e]; simpl; [|discriminate].
      intros _. now exists ast'.
    + intros [ast' ->]. reflexivity.
Qed.

Lemma visit_locates c log c' log' :
  visitClass resolve existsSync stringify isAbsolute ToString
      context c log = (Ok c', log') ->
  Early.locates c.
Proof.
  intros H.
  destruct (visit_completed _ _ _ _ _ _ _ _ _ _ H)
    as (name & _ & [(_ & _ & Hg) | (r & args & Hg & _)]);
    exact (early_getMetadata_returns _ _ Hg).
Qed.

Lemma traverse_locates ast log ast' log' :
  traverse (visitClass resolve existsSync stringify isAbsolute ToString
      context) ast log
  = (Ok ast', log') ->
  Early.locates_all ast.
Proof.
  unfold Early.locates_all. revert log ast' log'.
  induction ast as [|s ast IH]; intros log ast' log' H; [constructor|].
  destruct s as [c|code].
  - rewrite traverse_class in H.
    destruct (visitClass resolve existsSync stringify isAbsolute ToString
      context c log)
      as [[c'|e] l1] eqn:Hv; [|discriminate].
    destruct (traverse (visitClass resolve existsSync stringify isAbsolute ToString
      context)
                       ast l1) as [[rest'|e] l2] eqn:Ht; [|discriminate].
    constructor; [exact (visit_locates _ _ _ _ Hv)|].
    exact (IH _ _ _ Ht).
  - rewrite traverse_other in H.
    destruct (traverse (visitClass resolve existsSync stringify isAbsolute ToString
      context)
                       ast log) as [[rest'|e] l2] eqn:Ht; [|discriminate].
    constructor; [exact I|]. exact (IH _ _ _ Ht).
Qed.

(** X16: every source the final loader transforms without throwing is a
    source the first version transforms without throwing, returning it as
    it is. *)
Theorem early_returns_where_final_returns source log output log' :
  transform parse generate resolve existsSync stringify isAbsolute ToString
            context source log
  = (Ok output, log') ->
  Early.transform parse source = Ok source.
Proof.
  unfold transform. destruct (parse source) as [ast|] eqn:Hparse;
    [|discriminate].
  unfold bind.
  destruct (traverse (visitClass resolve existsSync stringify isAbsolute ToString
      context)
                     ast log) as [[ast'|e] l] eqn:Ht; [|discriminate].
  intros _. pose proof (traverse_locates _ _ _ _ Ht) as Hall.
  apply early_traverse_returns_iff in Hall. destruct Hall as [ast'' Hok].
  unfold Early.transform. rewrite Hparse, Hok. reflexivity.
Qed.
End EarlyTransform.

Lemma early_transform_returns_source_witness :
  Early.transform Examples.parse
                  [Class Examples.anonymous; Class Examples.SampleComponent]
  = Ok [Class Examples.anonymous; Class Examples.SampleComponent].
Proof.
  apply (proj2 (proj2 (early_transform_returns_source
                         Examples.parse
                         [Class Examples.anonymous;
                          Class Examples.SampleComponent])
                      [Class Examples.anonymous;
                       Class Examples.SampleComponent]
                      eq_refl)).
  repeat constructor.
  - exists None. reflexivity.
  - eexists. reflexivity.
Defined.

Lemma early_returns_where_final_returns_witness :
  Early.transform Examples.parse Examples.sample_file
  = Ok Examples.sample_file.
Proof.
  apply (early_returns_where_final_returns
           Examples.parse Examples.generate Examples.resolve
           Examples.existsSync Examples.show Examples.isAbsolute
           Examples.ToString Examples.context
           Examples.sample_file Examples.log0
           [ Other "import { Metadata } from '../lib/metadata-decorator';";
             Class (Examples.bare "SampleComponent");
             Class (Examples.bare "TestComponent") ]
           (snd (Examples.run Examples.sample_file Examples.log0))).
  reflexivity.
Defined.

(** ** Inputs that make the loader throw *)

(** X17: a record with a truthy name and a truthy thumbnail that is not a
    string (a number, [true], an array, an object) is not reported: the
    validator throws a [TypeError] from [path.resolve], having reported
    nothing. *)
Theorem non_string_thumbnail_throws
        (resolve : string -> string -> string) (existsSync : string -> bool)
        (isAbsolute : string -> bool) options name log :
  truthy (lookup "name" options) = true ->
  truthy (lookup "thumbnail" options) = true ->
  non_empty_string (lookup "thumbnail" options) = false ->
  validateOptions resolve existsSync isAbsolute options name log
  = (Throw TypeError, log).
Proof.
  intros Hn Ht Hs. unfold validateOptions. rewrite Hn, Ht. simpl.
  unfold bind, lift.
  destruct (get (lookup "env" options) "context") as [context|e] eqn:Hc; simpl.
  - unfold path_resolve.
    destruct (lookup "thumbnail" options); try reflexivity.
    simpl in Ht, Hs. rewrite Ht in Hs. discriminate Hs.
  - now rewrite (get_throws_TypeError _ _ _ Hc).
Qed.

Lemma non_string_thumbnail_throws_witness :
  validateOptions Examples.resolve Examples.existsSync Examples.isAbsolute
    (makeOptions "Card" (VObj [("thumbnail", VArr [VStr "./sample.png"])])
                 Examples.context)
    "Card" Examples.log0
  = (Throw TypeError, Examples.log0).
Proof.
  apply (non_string_thumbnail_throws
           Examples.resolve Examples.existsSync Examples.isAbsolute
           (makeOptions "Card"
              (VObj [("thumbnail", VArr [VStr "./sample.png"])])
              Examples.context)
           "Card" Examples.log0); reflexivity.
Defined.

Lemma reduce_properties_throws properties p acc :
  In p properties ->
  (forall key computed v, p <> ObjectProperty key computed v) ->
  reduce_result extract_property properties acc = Throw TypeError.
Proof.
  intros Hin Hp. revert acc.
  induction properties as [|q qs IH]; intros acc; [destruct Hin|].
  simpl. destruct (extract_property acc q) as [acc'|e] eqn:Hq; simpl.
  - destruct Hin as [->|Hin]; [|now apply IH].
    destruct p; simpl in Hq; try discriminate.
    now contradiction (Hp p1 computed p2).
  - destruct q; simpl in Hq; try (now injection Hq as <-).
    destruct (extractValue q2) as [v|e'] eqn:Hv; simpl in Hq; [discriminate|].
    injection Hq as <-. now rewrite (extractValue_throws_TypeError _ _ Hv).
Qed.

Lemma map_elements_throws elements :
  In None elements ->
  map_result extract_element elements = Throw TypeError.
Proof.
  induction elements as [|elt es IH]; intros Hin; [destruct Hin|].
  simpl. destruct elt as [x|]; simpl; [|reflexivity].
  destruct Hin as [Heq|Hin]; [discriminate|].
  destruct (extractValue x) as [v|e] eqn:Hv; simpl.
  - now rewrite (IH Hin).
  - now rewrite (extractValue_throws_TypeError _ _ Hv).
Qed.

(** X18: an object literal with a member that is not a property (a spread,
    a method) and an array literal with a hole are never extracted: the
    extractor throws a [TypeError], wherever the member or the hole
    stands. *)
Theorem non_property_member_throws properties elements p :
  In p properties ->
  (forall key computed v, p <> ObjectProperty key computed v) ->
  In None elements ->
  extractValue (ObjectExpression properties) = Throw TypeError /\
  extractValue (ArrayExpression elements) = Throw TypeError.
Proof.
  intros Hin Hp Hhole. split.
  - rewrite extractValue_object.
    now rewrite (reduce_properties_throws
                   properties p (ObjectPrototype, ([] : object)) Hin Hp).
  - rewrite extractValue_array. now rewrite (map_elements_throws _ Hhole).
Qed.

Lemma non_property_member_throws_witness :
  extractValue
    (ObjectExpression
       [ Examples.prop "thumbnail" (StringLiteral "./sample.png");
         ObjectMethod (Identifier "render") "() {}" ])
  = Throw TypeError /\
  extractValue
    (ArrayExpression [Some (StringLiteral "a"); None; Some (StringLiteral "b")])
  = Throw TypeError.
Proof.
  apply (non_property_member_throws
           [ Examples.prop "thumbnail" (StringLiteral "./sample.png");
             ObjectMethod (Identifier "render") "() {}" ]
           [Some (StringLiteral "a"); None; Some (StringLiteral "b")]
           (ObjectMethod (Identifier "render") "() {}")).
  - right. left. reflexivity.
  - discriminate.
  - right. left. reflexivity.
Defined.
